(** * The upload handler of [main.py]: model and properties

    The module [main.py] is a Flask application with five routes.  This file
    embeds the request handlers the specification talks about
    ([allowed_file], [upload_file], [show_uploaded_images], [watch_logs])
    together with the library calls they rely on, and proves the properties
    of the specification against that embedding.

    Conventions.
    - A Python [str] is a [string]; its characters are the code points below
      256.  [unicodedata.normalize] produces characters outside that range
      and is taken as a field of the environment ([nfkd]); every other text
      primitive is written out.
    - The three stores, the log and the flashed messages form the [World]; a
      handler is a function from a world to a world and an outcome, written
      in a state-and-exception monad whose state survives a raised exception
      (nothing in the program rolls back).
    - What the outside decides during a request (whether a store call
      raises, which identifier the document store generates) is read from
      the [Env], and so is the configuration [main.py] does not fix.  The
      module sets no secret key, so [flash] raises unless one was set from
      outside; [redirect], [url_for] and [render_template] are taken to
      succeed, the application being mounted at the root.
    - [logger] writes to app.log through the rotating handler of the
      module; records of other loggers are not followed. *)

From Stdlib Require Import String Ascii ZArith NArith Lia List DecimalString.
From stdpp Require Import base strings list gmap.
From Equations Require Import Equations.

Local Open Scope string_scope.
Local Open Scope list_scope.

(* [simpl] computes the concatenation of strings as it does for lists. *)
#[local] Arguments String.append !s1 s2 : simpl nomatch.

(** ** Python text primitives *)
Module Py.

Definition code (c : ascii) : N := N_of_ascii c.

Definition between (lo hi c : ascii) : bool :=
  ((code lo <=? code c) && (code c <=? code hi))%N.

Definition is_ascii (c : ascii) : bool := (code c <? 128)%N.

Definition is_digit (c : ascii) : bool := between "0" "9" c.

Definition is_ascii_upper (c : ascii) : bool := between "A" "Z" c.

Definition is_ascii_lower (c : ascii) : bool := between "a" "z" c.

(** [str.isspace] on one character: U+0009..U+000D, U+001C..U+0020,
    U+0085 and U+00A0. *)
Definition isspace (c : ascii) : bool :=
  ((9 <=? code c) && (code c <=? 13) || (28 <=? code c) && (code c <=? 32)
   || (code c =? 133) || (code c =? 160))%N.

(** The characters [int] skips around a literal: C's [isspace] on ASCII
    and the Unicode spaces above it. *)
Definition int_space (c : ascii) : bool :=
  ((9 <=? code c) && (code c <=? 13) || (code c =? 32)
   || (code c =? 133) || (code c =? 160))%N.

(** Characters with a lowercase mapping: A-Z and U+00C0..U+00DE without
    the multiplication sign U+00D7; the mapping adds 32. *)
Definition has_lower (c : ascii) : bool :=
  (is_ascii_upper c
   || (192 <=? code c) && (code c <=? 222) && negb (code c =? 215))%N.

Definition lower_char (c : ascii) : ascii :=
  if has_lower c then ascii_of_N (code c + 32) else c.

(** [s.lower()] *)
Fixpoint lower (s : string) : string :=
  match s with
  | EmptyString => EmptyString
  | String c s' => String (lower_char c) (lower s')
  end.

(** [c in s] for a one-character [c] *)
Fixpoint contains (c : ascii) (s : string) : bool :=
  match s with
  | EmptyString => false
  | String d s' => Ascii.eqb d c || contains c s'
  end.

(** The cut of [s.rsplit(sep, 1)] at the last [sep], when there is one. *)
Fixpoint rsplit_last (sep : ascii) (s : string) : option (string * string) :=
  match s with
  | EmptyString => None
  | String c s' =>
      match rsplit_last sep s' with
      | Some (before, after) => Some (String c before, after)
      | None => if Ascii.eqb c sep then Some (EmptyString, s') else None
      end
  end.

(** [s.rsplit(sep, 1)] *)
Definition rsplit1 (sep : ascii) (s : string) : list string :=
  match rsplit_last sep s with
  | Some (before, after) => [before; after]
  | None => [s]
  end.

Fixpoint filter_chars (keep : ascii -> bool) (s : string) : string :=
  match s with
  | EmptyString => EmptyString
  | String c s' =>
      if keep c then String c (filter_chars keep s') else filter_chars keep s'
  end.

Fixpoint map_chars (f : ascii -> ascii) (s : string) : string :=
  match s with
  | EmptyString => EmptyString
  | String c s' => String (f c) (map_chars f s')
  end.

(** [s.replace(a, b)] for one-character [a] and [b] *)
Definition replace_char (a b : ascii) (s : string) : string :=
  map_chars (fun c => if Ascii.eqb c a then b else c) s.

Definition is_empty (s : string) : bool :=
  match s with EmptyString => true | _ => false end.

(** [s.split()]: the maximal runs of characters that are not spaces;
    [word] is the run being read. *)
Fixpoint split_from (word s : string) : list string :=
  match s with
  | EmptyString => if is_empty word then [] else [word]
  | String c s' =>
      if isspace c
      then (if is_empty word then split_from EmptyString s'
            else word :: split_from EmptyString s')
      else split_from (word ++ String c EmptyString) s'
  end.

Definition split (s : string) : list string := split_from EmptyString s.

(** [sep.join(words)] *)
Definition join (sep : string) (words : list string) : string :=
  String.concat sep words.

Fixpoint lstrip (drop : ascii -> bool) (s : string) : string :=
  match s with
  | EmptyString => EmptyString
  | String c s' => if drop c then lstrip drop s' else s
  end.

Fixpoint rstrip (drop : ascii -> bool) (s : string) : string :=
  match s with
  | EmptyString => EmptyString
  | String c s' =>
      match rstrip drop s' with
      | EmptyString => if drop c then EmptyString else String c EmptyString
      | rest => String c rest
      end
  end.

(** [s.strip(chars)] *)
Definition strip (chars : string) (s : string) : string :=
  rstrip (fun c => contains c chars) (lstrip (fun c => contains c chars) s).

(** *** [int(s)] in base 10 *)

Definition digit_value (c : ascii) : Z := Z.of_N (code c - code "0").

(** The digits of a literal, most significant first: digits with single
    underscores between them.  [after_digit] tells whether the character
    before was a digit. *)
Fixpoint digits_of (after_digit : bool) (s : string) : option (list Z) :=
  match s with
  | EmptyString => if after_digit then Some [] else None
  | String c s' =>
      if is_digit c then
        match digits_of true s' with
        | Some ds => Some (digit_value c :: ds)
        | None => None
        end
      else if Ascii.eqb c "_" then
        (if after_digit then
           match s' with
           | EmptyString => None
           | _ => digits_of false s'
           end
         else None)
      else None
  end.

Definition value_of (ds : list Z) : Z :=
  fold_left (fun acc d => 10 * acc + d)%Z ds 0%Z.

(** [max_digits] is [sys.get_int_max_str_digits()]; 0 switches the limit
    off. *)
Definition within_limit (max_digits : nat) (ds : list Z) : bool :=
  (max_digits =? 0)%nat || (length ds <=? max_digits)%nat.

Definition unsigned_int (max_digits : nat) (s : string) : option Z :=
  match s with
  | EmptyString => None
  | _ =>
      match digits_of false s with
      | Some ds => if within_limit max_digits ds then Some (value_of ds) else None
      | None => None
      end
  end.

(** [int(s)]: [None] stands for the [ValueError]. *)
Definition int (max_digits : nat) (s : string) : option Z :=
  match rstrip int_space (lstrip int_space s) with
  | String "+" body => unsigned_int max_digits body
  | String "-" body => option_map Z.opp (unsigned_int max_digits body)
  | body => unsigned_int max_digits body
  end.

Fixpoint ends_with (c : ascii) (s : string) : bool :=
  match s with
  | EmptyString => false
  | String d EmptyString => Ascii.eqb d c
  | String _ s' => ends_with c s'
  end.

(** [s.startswith(c)] for a one-character [c] *)
Definition starts_with (c : ascii) (s : string) : bool :=
  match s with
  | EmptyString => false
  | String d _ => Ascii.eqb d c
  end.

(** The first [n] characters of [s]. *)
Fixpoint take (n : nat) (s : string) : string :=
  match n, s with
  | S n', String c s' => String c (take n' s')
  | _, _ => EmptyString
  end.

(** The number of bytes of [s.encode("utf-8")]: two for a character from
    U+0080 on. *)
Fixpoint utf8_length (s : string) : nat :=
  match s with
  | EmptyString => 0
  | String c s' => (if is_ascii c then 1 else 2) + utf8_length s'
  end.

(** [os.path.join(a, b)] on POSIX *)
Definition os_path_join (a b : string) : string :=
  if starts_with "/" b then b
  else if is_empty a || ends_with "/" a then a ++ b
  else a ++ "/" ++ b.

End Py.

(** ** The world the handlers run in *)

Inductive Level := INFO | ERROR.

(** A document of the "file-uploads" collection, as [upload_file] writes
    it; [doc_id] is the text of the generated ObjectId. *)
Record Document := {
  doc_id : string;
  file_path : string
}.

(** A row of the [products] table. *)
Record Product := {
  name : option string;
  image_mongodb_id : string;
  stock_count : Z;
  review : string
}.

(** The writes to the three stores, in the order they happened. *)
Inductive Effect :=
| FileSaved (path content : string)
| DocumentInserted (d : Document)
| ProductInserted (p : Product).

Record World := {
  uploads : gmap string string;   (* files on disk: path to content *)
  documents : list Document;      (* the "file-uploads" collection *)
  products : list Product;        (* committed rows of [products] *)
  log : list (Level * string);    (* records passed to [logger] *)
  app_log : string;               (* text of the file app.log *)
  flashes : list string;          (* messages flashed to the session *)
  history : list Effect           (* store writes so far *)
}.

(** What is fixed outside the handlers: configuration, the library
    behaviour left open, and the outcome of each store call of the request
    ([Some text]: the call raises an exception whose [str] is [text]). *)
Record Env := {
  UPLOAD_FOLDER : option string;         (* os.getenv("UPLOAD_DIRECTORY") *)
  ENV_MODE : option string;              (* os.getenv("ENV_MODE") *)
  nfkd : string -> string;               (* unicodedata.normalize("NFKD", s) *)
  int_max_str_digits : nat;              (* sys.get_int_max_str_digits() *)
  int_error : option string -> string;   (* str of what int(x) raises *)
  logger_name : string;                  (* __name__ of the module *)
  SECRET_KEY : option string;            (* app.secret_key; main.py sets
                                            none *)
  save_error : option string;            (* file.save *)
  save_written : option nat;             (* when file.save raises: [None]
                                            if the destination could not be
                                            opened, [Some n] if it was
                                            opened and [n] bytes were copied
                                            before the exception *)
  mongodb_error : option string;         (* create_mongodb_connection *)
  insert_one_error : option string;      (* collection.insert_one *)
  inserted_id : string;                  (* str(result.inserted_id) *)
  find_error : option string;            (* collection.find *)
  connect_error : option string;         (* psycopg2.connect and the
                                            os.environ lookups of its
                                            arguments *)
  execute_error : option string;         (* cur.execute *)
  commit_error : option string           (* conn.commit *)
}.

Inductive exn :=
| Exception (text : string)
| TypeError (text : string)
| ValueError (text : string)
| RuntimeError (text : string)
| DriverError (text : string).

(** [str(e)] *)
Definition str (e : exn) : string :=
  match e with
  | Exception t | TypeError t | ValueError t | RuntimeError t
  | DriverError t => t
  end.

Inductive Method := GET | HEAD | POST.

Record FileStorage := {
  filename : string;
  stream : string
}.

Record Request := {
  method : Method;
  url : string;
  form : list (string * string);
  files : list (string * FileStorage)
}.

(** A Python dict from keys to strings, in insertion order. *)
Definition dict : Type := list (string * string).

Inductive Response :=
| Redirect (location : string)          (* redirect(location) *)
| Jsonify (body : dict)                 (* a dict returned by a view *)
| Html (body : string)                  (* a str returned by a view *)
| DumpsData (data : list dict)          (* json.dumps({"data": data}) *)
| Template (file : string) (context : list (string * list dict))
| Stream (chunks : list string) (mimetype : string).

(** *** State and exceptions *)

Definition M (A : Type) : Type := World -> World * (exn + A).

Definition ret {A} (a : A) : M A := fun w => (w, inr a).

Definition raise {A} (e : exn) : M A := fun w => (w, inl e).

Definition bind {A B} (c : M A) (k : A -> M B) : M B :=
  fun w =>
    match c w with
    | (w', inl e) => (w', inl e)
    | (w', inr a) => k a w'
    end.

(** [try: body except Exception as e: handler e] *)
Definition try_except {A} (body : M A) (handler : exn -> M A) : M A :=
  fun w =>
    match body w with
    | (w', inl e) => handler e w'
    | (w', inr a) => (w', inr a)
    end.

#[global] Instance M_ret : MRet M := @ret.

#[global] Instance M_bind : MBind M := fun A B k c => bind c k.

Definition modify (f : World -> World) : M unit := fun w => (f w, inr tt).

Definition gets {A} (f : World -> A) : M A := fun w => (w, inr (f w)).

Definition guard_error (err : option string) : M unit :=
  match err with
  | Some text => raise (DriverError text)
  | None => ret tt
  end.

(** *** The writes *)

Definition record_log (app_log' : string) (lvl : Level) (msg : string)
    (w : World) : World :=
  {| uploads := uploads w; documents := documents w; products := products w;
     log := log w ++ [(lvl, msg)]; app_log := app_log';
     flashes := flashes w; history := history w |}.

Definition record_flash (msg : string) (w : World) : World :=
  {| uploads := uploads w; documents := documents w; products := products w;
     log := log w; app_log := app_log w;
     flashes := flashes w ++ [msg]; history := history w |}.

Definition write_file (path content : string) (w : World) : World :=
  {| uploads := <[path := content]> (uploads w);
     documents := documents w; products := products w;
     log := log w; app_log := app_log w; flashes := flashes w;
     history := history w ++ [FileSaved path content] |}.

Definition add_document (d : Document) (w : World) : World :=
  {| uploads := uploads w; documents := documents w ++ [d];
     products := products w;
     log := log w; app_log := app_log w; flashes := flashes w;
     history := history w ++ [DocumentInserted d] |}.

Definition add_product (p : Product) (w : World) : World :=
  {| uploads := uploads w; documents := documents w;
     products := products w ++ [p];
     log := log w; app_log := app_log w; flashes := flashes w;
     history := history w ++ [ProductInserted p] |}.

(** *** The collaborators *)

Definition LF : string := String (ascii_of_N 10) EmptyString.

Definition levelname (lvl : Level) : string :=
  match lvl with
  | INFO => "INFO"
  | ERROR => "ERROR"
  end.

(** The line of a record under the format of [logging.basicConfig],
    [%(levelname)s:%(name)s:%(message)s]. *)
Definition format_record (name : string) (lvl : Level) (msg : string) : string :=
  levelname lvl ++ ":" ++ name ++ ":" ++ msg.

Definition maxBytes : N := 10000.

(** [RotatingFileHandler(LOG_FILE, maxBytes=10000, backupCount=1).emit]:
    the text of app.log after the record.  When the size of the file plus
    the length of the line reaches [maxBytes], the file is first renamed
    to app.log.1 and a new app.log is begun. *)
Definition handler_emit (name content : string) (lvl : Level) (msg : string)
    : string :=
  let line := (format_record name lvl msg ++ LF)%string in
  if (maxBytes <=? N.of_nat (Py.utf8_length content + String.length line))%N
  then line
  else (content ++ line)%string.

(** The world after [logger] handled one record: the record is kept and
    the handler has rewritten app.log. *)
Definition logged (env : Env) (lvl : Level) (msg : string) (w : World) : World :=
  record_log (handler_emit (logger_name env) (app_log w) lvl msg) lvl msg w.

Definition logger_record (env : Env) (lvl : Level) (msg : string) : M unit :=
  modify (logged env lvl msg).

Definition logger_info (env : Env) : string -> M unit := logger_record env INFO.

Definition logger_error (env : Env) : string -> M unit := logger_record env ERROR.

(** The session works when the application has a secret key that is not
    empty. *)
Definition has_session (env : Env) : bool :=
  match SECRET_KEY env with
  | Some key => negb (Py.is_empty key)
  | None => false
  end.

Definition session_unavailable : string :=
  "The session is unavailable because no secret key was set.  Set the secret_key on the application to something unique and secret.".

(** [flash(msg)]: stores the message in the session, which raises when
    there is none. *)
Definition flash (env : Env) (msg : string) : M unit :=
  if has_session env then modify (record_flash msg)
  else raise (RuntimeError session_unavailable).

(** [file.save(path)]: opens [path] for writing, which creates or empties
    the file, and copies the stream.  A save that raises has either not
    opened the file or left in it what was copied so far. *)
Definition file_save (env : Env) (file : FileStorage) (path : string) : M unit :=
  match save_error env with
  | None => modify (write_file path (stream file))
  | Some text =>
      match save_written env with
      | Some n => modify (write_file path (Py.take n (stream file)))
      | None => mret tt
      end ;;
      raise (DriverError text)
  end.

Definition create_mongodb_connection (env : Env) : M unit :=
  guard_error (mongodb_error env).

(** [collection.insert_one({"file_path": f})], returning the text of
    [inserted_id]. *)
Definition insert_one (env : Env) (f : string) : M string :=
  guard_error (insert_one_error env) ;;
  modify (add_document {| doc_id := inserted_id env; file_path := f |}) ;;
  mret (inserted_id env).

(** [list(collection.find({}))] *)
Definition find_all (env : Env) : M (list Document) :=
  guard_error (find_error env) ;;
  gets documents.

Definition psycopg2_connect (env : Env) : M unit :=
  guard_error (connect_error env).

(** [cur.execute('INSERT INTO products ...', row)]: the row is pending
    until the commit. *)
Definition cur_execute (env : Env) (row : Product) : M Product :=
  guard_error (execute_error env) ;; mret row.

(** [conn.commit()] with one pending row. *)
Definition conn_commit (env : Env) (pending : Product) : M unit :=
  guard_error (commit_error env) ;;
  modify (add_product pending).

(** ** Werkzeug and Flask helpers used by the handlers *)
Module Werkzeug.

(** The class [[A-Za-z0-9_.-]] of [_filename_ascii_strip_re]. *)
Definition is_filename_char (c : ascii) : bool :=
  Py.is_ascii_upper c || Py.is_ascii_lower c || Py.is_digit c
  || Py.contains c "_.-".

(** [werkzeug.utils.secure_filename] on POSIX ([os.sep] is the slash and
    there is no [os.path.altsep]). *)
Definition secure_filename (normalize : string -> string) (filename : string)
    : string :=
  let filename := normalize filename in
  (* .encode("ascii", "ignore").decode("ascii") *)
  let filename := Py.filter_chars Py.is_ascii filename in
  let filename := Py.replace_char "/" " " filename in
  Py.strip "._"
    (Py.filter_chars is_filename_char (Py.join "_" (Py.split filename))).

Definition hex_digit (n : N) : ascii :=
  if (n <? 10)%N then ascii_of_N (48 + n) else ascii_of_N (55 + n).

(** [%XX] for one byte *)
Definition percent (byte : N) : string :=
  String "%" (String (hex_digit (byte / 16)) (String (hex_digit (byte mod 16)) EmptyString)).

(** Characters [urllib.parse.quote] never escapes, and the [safe]
    argument of the string converter's [to_url]. *)
Definition is_unreserved (c : ascii) : bool :=
  Py.is_ascii_upper c || Py.is_ascii_lower c || Py.is_digit c
  || Py.contains c "_.-~".

Definition is_url_safe (c : ascii) : bool :=
  is_unreserved c || Py.contains c "!$&'()*+,/:;=@".

(** One character of [quote(value, safe="!$&'()*+,/:;=@")]: kept, or the
    bytes of its UTF-8 encoding escaped. *)
Definition quote_char (c : ascii) : string :=
  if is_url_safe c then String c EmptyString
  else if Py.is_ascii c then percent (Py.code c)
  else percent (192 + Py.code c / 64) ++ percent (128 + Py.code c mod 64).

Fixpoint quote (s : string) : string :=
  match s with
  | EmptyString => EmptyString
  | String c s' => quote_char c ++ quote s'
  end.

(** [url_for('download_file', name=name)] for the rule [/uploads/<name>]. *)
Definition url_for_download_file (name : string) : string :=
  "/uploads/" ++ quote name.

End Werkzeug.

(** ** The application *)

Definition ALLOWED_EXTENSIONS : gset string :=
  {[ "txt"; "pdf"; "png"; "jpg"; "jpeg"; "gif" ]}.

Definition LOG_FILE : string := "app.log".

(** [filename.rsplit('.', 1)[1]] raises [IndexError] when the list has one
    element; the test on the left of [and] keeps that case away, and the
    model answers [false] there. *)
Definition allowed_file (filename : string) : bool :=
  Py.contains "." filename &&
  match Py.rsplit1 "." filename !! 1%nat with
  | Some extension => bool_decide (Py.lower extension ∈ ALLOWED_EXTENSIONS)
  | None => false
  end.

(** [d.get(key)] on a MultiDict: the first value under [key]. *)
Fixpoint multidict_get {V} (key : string) (d : list (string * V)) : option V :=
  match d with
  | [] => None
  | (k, v) :: d' => if String.eqb k key then Some v else multidict_get key d'
  end.

(** [x == s] for [x] a string or [None] *)
Definition is_str (x : option string) (s : string) : bool :=
  match x with
  | Some t => String.eqb t s
  | None => false
  end.

(** [int(x)] for [x] a string or [None] *)
Definition int_of (env : Env) (x : option string) : M Z :=
  match x with
  | None => raise (TypeError (int_error env None))
  | Some s =>
      match Py.int (int_max_str_digits env) s with
      | Some n => mret n
      | None => raise (ValueError (int_error env (Some s)))
      end
  end.

(** [os.path.join(app.config['UPLOAD_FOLDER'], filename)] *)
Definition upload_path (env : Env) (filename : string) : M string :=
  match UPLOAD_FOLDER env with
  | Some folder => mret (Py.os_path_join folder filename)
  | None => raise (TypeError "expected str, bytes or os.PathLike object, not NoneType")
  end.

Definition indent : string := "                    ".

(** The page the handler answers with outside backend mode. *)
Definition uploaded_page (filename img_url : string) : string :=
  LF ++ indent ++ "<!doctype html>" ++ LF
  ++ indent ++ "<html>" ++ LF
  ++ indent ++ "    <h1>" ++ filename ++ "</h1>" ++ LF
  ++ indent ++ "    <img src=" ++ img_url ++ "></img>" ++ LF
  ++ indent ++ "</html>" ++ LF
  ++ indent.

(** The [try] block of [upload_file].  [Some r] is [return r]; [None] is
    the end of the block reached without a [return]. *)
Definition upload_try (env : Env) (request : Request) : M (option Response) :=
  logger_info env "Received a POST request to upload a file." ;;
  if is_str (multidict_get "force_failure" (form request)) "true"
  then raise (Exception "Forced failure triggered.")
  else
    match multidict_get "file" (files request) with
    | None =>
        logger_error env "Failed: No file part in the request." ;;
        flash env "No file part" ;;
        mret (Some (Redirect (url request)))
    | Some file =>
        if String.eqb (filename file) ""
        then
          logger_error env "Failed: No file selected for upload." ;;
          flash env "No selected file" ;;
          mret (Some (Redirect (url request)))
        else if negb (Py.is_empty (filename file)) && allowed_file (filename file)
        then
          let filename := Werkzeug.secure_filename (nfkd env) (filename file) in
          file_path ← upload_path env filename ;
          file_save env file file_path ;;
          create_mongodb_connection env ;;
          result ← insert_one env filename ;
          psycopg2_connect env ;;
          let product_name := multidict_get "product_name" (form request) in
          let image_mongodb_id := result in
          stock_count ← int_of env (multidict_get "initial_stock_count" (form request)) ;
          let review := "Sample Review" in
          pending ← cur_execute env
            {| name := product_name; image_mongodb_id := image_mongodb_id;
               stock_count := stock_count; review := review |} ;
          conn_commit env pending ;;
          let img_url := Werkzeug.url_for_download_file filename in
          logger_info env "Success: File upload completed successfully." ;;
          if is_str (ENV_MODE env) "backend"
          then mret (Some (Jsonify [("filename", filename); ("img_url", img_url)]))
          else mret (Some (Html (uploaded_page filename img_url)))
        else mret None
    end.

(** What follows the [try] statement: the form is rendered. *)
Definition render_upload_form : M Response :=
  mret (Template "upload_image.html" []).

Definition upload_file (env : Env) (request : Request) : M Response :=
  logger_info env "Accessed the upload file page." ;;
  match method request with
  | POST =>
      returned ← try_except (upload_try env request)
        (fun e =>
           logger_error env ("Failed: " ++ str e) ;;
           flash env ("An error occurred: " ++ str e) ;;
           mret (Some (Redirect (url request)))) ;
      match returned with
      | Some response => mret response
      | None => render_upload_form
      end
  | _ => render_upload_form
  end.

Definition decimal (n : nat) : string :=
  DecimalString.NilEmpty.string_of_uint (Nat.to_uint n).

Definition show_uploaded_images (env : Env) : M Response :=
  logger_info env "Accessed the images page." ;;
  create_mongodb_connection env ;;
  data ← find_all env ;
  logger_info env ("Fetched " ++ decimal (length data) ++ " images from MongoDB.") ;;
  let parsed :=
    map (fun d => [("image_url", Werkzeug.url_for_download_file (file_path d))]) data in
  if is_str (ENV_MODE env) "backend"
  then mret (DumpsData parsed)
  else mret (Template "view_images.html" [("navigation", parsed)]).

(** *** Streaming the log *)

Definition is_LF (c : ascii) : bool := (Py.code c =? 10)%N.

Definition is_CR (c : ascii) : bool := (Py.code c =? 13)%N.

(** What a file opened with [open(path, "r")] shows of its text: each of
    CR LF, CR and LF reads as LF.  [after_cr] tells whether the character
    before was a CR. *)
Fixpoint universal_newlines (after_cr : bool) (s : string) : string :=
  match s with
  | EmptyString => EmptyString
  | String c s' =>
      if is_CR c then String (ascii_of_N 10) (universal_newlines true s')
      else if is_LF c && after_cr then universal_newlines false s'
      else String c (universal_newlines false s')
  end.

(** [open(LOG_FILE, "r")]: the text still to be read. *)
Definition open_text (content : string) : string :=
  universal_newlines false content.

(** [f.readline()]: the line read, with its newline, and the text left;
    the empty string at the end of the file. *)
Fixpoint readline (f : string) : string * string :=
  match f with
  | EmptyString => (EmptyString, EmptyString)
  | String c f' =>
      if is_LF c then (String c EmptyString, f')
      else let (line, rest) := readline f' in (String c line, rest)
  end.

Definition inspect {A} (a : A) : {b : A | a = b} := exist _ a eq_refl.

(** The generator of [watch_logs], as the list of what it yields:
    [while True: line = f.readline(); if not line: break; yield line]. *)
Equations? generate (f : string) : list string by wf (String.length f) lt :=
  generate f with inspect (readline f) := {
    | exist _ (EmptyString, _) _ := [];
    | exist _ (String c line, rest) _ := String c line :: generate rest }.
Proof.
  clear generate.
  match goal with H : readline f = _ |- _ => revert c line rest H end.
  induction f as [|d f IH]; intros c line rest; simpl.
  - discriminate.
  - destruct (is_LF d).
    + intros [= _ _ <-]. lia.
    + destruct (readline f) as [l r] eqn:E. intros [= _ <- <-].
      destruct l as [|c' l'].
      * destruct f as [|a f]; simpl in E.
        -- injection E as <-. simpl. lia.
        -- destruct (is_LF a); [discriminate|].
           destruct (readline f); discriminate.
      * specialize (IH _ _ _ eq_refl). lia.
Qed.

Definition watch_logs : M Response :=
  content ← gets app_log ;
  mret (Stream (generate (open_text content)) "text/plain").

(** ** Vocabulary of the statements *)

(** Every character of [s] passes [p]. *)
Fixpoint all_chars (p : ascii -> bool) (s : string) : bool :=
  match s with
  | EmptyString => true
  | String c s' => p c && all_chars p s'
  end.

Definition first_char (s : string) : option ascii :=
  match s with
  | EmptyString => None
  | String c _ => Some c
  end.

Definition not_newline (c : ascii) : bool := negb (is_LF c) && negb (is_CR c).

(** A complete line of a text file: no newline but the one that ends it. *)
Definition complete_line (chunk : string) : Prop :=
  exists body : string,
    chunk = body +:+ LF /\ all_chars (fun c => negb (is_LF c)) body = true.

(** The rest of a text file after its last newline, when there is some. *)
Definition open_line (chunk : string) : Prop :=
  chunk <> EmptyString /\ all_chars (fun c => negb (is_LF c)) chunk = true.

(** Complete lines, then possibly one open line. *)
Fixpoint lines_then_rest (chunks : list string) : Prop :=
  match chunks with
  | [] => True
  | [chunk] => complete_line chunk \/ open_line chunk
  | chunk :: chunks' => complete_line chunk /\ lines_then_rest chunks'
  end.

(** A text that stops at a line boundary: empty, or ended by a newline. *)
Definition at_line_start (text : string) : bool :=
  Py.is_empty text || Py.ends_with (ascii_of_N 10) text.

(** What a client receives from a streamed response. *)
Definition body_of (chunks : list string) : string :=
  fold_right String.append EmptyString chunks.

(** The world the [except] clause of [upload_file] leaves when it caught
    [e] in world [w]. *)
Definition after_failure (env : Env) (e : exn) (w : World) : World :=
  if has_session env
  then record_flash ("An error occurred: " ++ str e)
         (logged env ERROR ("Failed: " ++ str e) w)
  else logged env ERROR ("Failed: " ++ str e) w.

(** What the [except] clause ends with: the redirect to the form, or the
    exception of [flash] when there is no session. *)
Definition failure_outcome (env : Env) (request : Request) : exn + Response :=
  if has_session env then inr (Redirect (url request))
  else inl (RuntimeError session_unavailable).

(** The run [r], begun in [w], ends as a caught exception of text [text]
    ends: with a session the text is flashed and the client is sent back
    to the form; without one nothing is flashed and the exception of
    [flash] leaves the view. *)
Definition ends_failed (env : Env) (request : Request) (text : string)
    (w : World) (r : World * (exn + Response)) : Prop :=
  r.2 = failure_outcome env request
  /\ flashes r.1
     = if has_session env
       then flashes w ++ [("An error occurred: " ++ text)%string]
       else flashes w.

(** The three stores. *)
Definition stores (w : World)
    : gmap string string * list Document * list Product :=
  (uploads w, documents w, products w).



(** The integer [upload_file] reads from the form, when [int] accepts the
    field. *)
Definition stock_count_of (env : Env) (request : Request) : option Z :=
  match multidict_get "initial_stock_count" (form request) with
  | Some s => Py.int (int_max_str_digits env) s
  | None => None
  end.

(** The request without its form fields named [key]. *)
Definition without_field (key : string) (request : Request) : Request :=
  {| method := method request; url := url request;
     form := List.filter (fun kv => negb (String.eqb (fst kv) key)) (form request);
     files := files request |}.

(** A name that is safe to append to a directory: made of the characters
    [[A-Za-z0-9_.-]] only, hence without a slash or a backslash, and not
    starting with a dot, hence neither "." nor "..". *)
Definition traversal_free (name : string) : Prop :=
  all_chars Werkzeug.is_filename_char name = true
  /\ Py.contains "/" name = false
  /\ Py.contains "\" name = false
  /\ first_char name <> Some "."%char
  /\ name <> ".." /\ name <> ".".

(** ** Sample inputs *)

Definition sample_env : Env := {|
  UPLOAD_FOLDER := Some "uploads";
  ENV_MODE := Some "backend";
  nfkd := fun s => s;
  int_max_str_digits := 4300;
  int_error := fun x =>
    match x with
    | Some s => ("invalid literal for int() with base 10: '" ++ s ++ "'")%string
    | None => "int() argument must be a string, a bytes-like object or a real number, not 'NoneType'"
    end;
  logger_name := "main";
  SECRET_KEY := None;
  save_error := None;
  save_written := None;
  mongodb_error := None;
  insert_one_error := None;
  inserted_id := "65f1c0ffee0123456789abcd";
  find_error := None;
  connect_error := None;
  execute_error := None;
  commit_error := None
|}.

Definition empty_world : World := {|
  uploads := ∅; documents := []; products := []; log := [];
  app_log := ""; flashes := []; history := []
|}.

Definition upload_of (name : string) (fields : list (string * string)) : Request := {|
  method := POST;
  url := "http://localhost/upload-file";
  form := fields;
  files := [("file", {| filename := name; stream := "bytes" |})]
|}.

Definition photo_request : Request :=
  upload_of "photo.png" [("product_name", "Widget"); ("initial_stock_count", "5")].

Definition malware_request : Request :=
  upload_of "malware.exe" [("product_name", "Widget"); ("initial_stock_count", "5")].

Definition forced_request : Request :=
  upload_of "photo.png"
    [("product_name", "Widget"); ("initial_stock_count", "5"); ("force_failure", "true")].

Definition negative_stock_request : Request :=
  upload_of "photo.png" [("product_name", "Widget"); ("initial_stock_count", "-5")].

Definition bad_stock_request : Request :=
  upload_of "photo.png" [("product_name", "Widget"); ("initial_stock_count", "five")].

Definition capital_flag_request : Request :=
  upload_of "photo.png"
    [("product_name", "Widget"); ("initial_stock_count", "5"); ("force_failure", "True")].

Definition photo_document : Document :=
  {| doc_id := "65f1c0ffee0123456789abcd"; file_path := "photo.png" |}.

Definition negative_row : Product :=
  {| name := Some "Widget"; image_mongodb_id := "65f1c0ffee0123456789abcd";
     stock_count := (-5)%Z; review := "Sample Review" |}.

Definition traversal_request : Request :=
  upload_of "../../etc/passwd.png" [("product_name", "Widget"); ("initial_stock_count", "5")].

(** ** Further vocabulary: the course of an upload *)

(** The request passes the tests [upload_file] makes before it writes. *)
Definition passes_validation (request : Request) (file : FileStorage) : Prop :=
  method request = POST
  /\ multidict_get "force_failure" (form request) <> Some "true"
  /\ multidict_get "file" (files request) = Some file
  /\ allowed_file (filename file) = true.

(** The text of the first exception of the disk step, of the document
    store step and of the catalog step of [upload_file], in program order;
    [None] when the step goes through. *)
Definition disk_failure (env : Env) : option string :=
  match UPLOAD_FOLDER env with
  | None => Some "expected str, bytes or os.PathLike object, not NoneType"
  | Some _ => save_error env
  end.

Definition metadata_failure (env : Env) : option string :=
  match mongodb_error env with
  | Some text => Some text
  | None => insert_one_error env
  end.

Definition catalog_failure (env : Env) (request : Request) : option string :=
  match connect_error env with
  | Some text => Some text
  | None =>
      match multidict_get "initial_stock_count" (form request) with
      | None => Some (int_error env None)
      | Some s =>
          match Py.int (int_max_str_digits env) s with
          | None => Some (int_error env (Some s))
          | Some _ =>
              match execute_error env with
              | Some text => Some text
              | None => commit_error env
              end
          end
      end
  end.

(** The request is validated and no step of the upload fails. *)
Definition accepted (env : Env) (request : Request) (file : FileStorage)
    (folder : string) (n : Z) : Prop :=
  passes_validation request file
  /\ UPLOAD_FOLDER env = Some folder
  /\ disk_failure env = None
  /\ metadata_failure env = None
  /\ catalog_failure env request = None
  /\ stock_count_of env request = Some n.

(** The document and the row an accepted upload inserts, and its answer. *)
Definition document_of (env : Env) (file : FileStorage) : Document :=
  {| doc_id := inserted_id env;
     file_path := Werkzeug.secure_filename (nfkd env) (filename file) |}.

Definition row_of (env : Env) (request : Request) (n : Z) : Product :=
  {| name := multidict_get "product_name" (form request);
     image_mongodb_id := inserted_id env;
     stock_count := n;
     review := "Sample Review" |}.

Definition answer_of (env : Env) (file : FileStorage) : Response :=
  let N := Werkzeug.secure_filename (nfkd env) (filename file) in
  if is_str (ENV_MODE env) "backend"
  then Jsonify [("filename", N); ("img_url", Werkzeug.url_for_download_file N)]
  else Html (uploaded_page N (Werkzeug.url_for_download_file N)).

(** The answer is the one of a completed upload. *)
Definition is_success (out : exn + Response) : bool :=
  match out with
  | inr (Jsonify _) | inr (Html _) => true
  | _ => false
  end.

(** The entry of an image list for a stored name, and the list an answer
    of [show_uploaded_images] carries. *)
Definition image_entry (stored : string) : dict :=
  [("image_url", Werkzeug.url_for_download_file stored)].

Definition listing_of (out : exn + Response) : option (list dict) :=
  match out with
  | inr (DumpsData data) => Some data
  | inr (Template _ [(_, data)]) => Some data
  | _ => None
  end.

(** The number of newlines of a text. *)
Fixpoint count_LF (s : string) : nat :=
  match s with
  | EmptyString => 0
  | String c s' => (if is_LF c then 1 else 0) + count_LF s'
  end.

Definition is_letter (c : ascii) : bool :=
  Py.is_ascii_upper c || Py.is_ascii_lower c.

(** Every product row names a document of the document store. *)
Definition references_hold (w : World) : Prop :=
  forall row : Product,
    In row (products w) ->
    exists d : Document, In d (documents w) /\ doc_id d = image_mongodb_id row.

Definition is_error (record : Level * string) : bool :=
  match fst record with
  | ERROR => true
  | INFO => false
  end.

(** ** Further sample inputs *)

Definition env_with (mode mongo connect : option string) : Env := {|
  UPLOAD_FOLDER := Some "uploads";
  ENV_MODE := mode;
  nfkd := fun s => s;
  int_max_str_digits := 4300;
  int_error := fun _ => "invalid literal";
  logger_name := "main";
  SECRET_KEY := None;
  save_error := None;
  save_written := None;
  mongodb_error := mongo;
  insert_one_error := None;
  inserted_id := "65f1c0ffee0123456789abce";
  find_error := mongo;
  connect_error := connect;
  execute_error := None;
  commit_error := None
|}.

Definition frontend_env : Env := env_with None None None.

Definition mongo_down_env : Env :=
  env_with (Some "backend") (Some "connection refused") None.

Definition get_request : Request := {|
  method := GET;
  url := "http://localhost/upload-file";
  form := [];
  files := []
|}.

Definition no_file_request : Request := {|
  method := POST;
  url := "http://localhost/upload-file";
  form := [("product_name", "Widget"); ("initial_stock_count", "5")];
  files := []
|}.

Definition empty_name_request : Request :=
  upload_of "" [("product_name", "Widget"); ("initial_stock_count", "5")].

Definition photo_file : FileStorage :=
  {| filename := "photo.png"; stream := "bytes" |}.

Definition retouched_file : FileStorage :=
  {| filename := "../photo.png"; stream := "other bytes" |}.

Definition retouched_request : Request := {|
  method := POST;
  url := "http://localhost/upload-file";
  form := [("initial_stock_count", "7")];
  files := [("file", retouched_file)]
|}.

Definition noisy_request : Request :=
  upload_of "photo.png"
    [("colour", "red"); ("product_name", "Widget"); ("initial_stock_count", "5");
     ("initial_stock_count", "six")].

(** The application with a secret key set by the process that imports it. *)
Definition keyed_env : Env := {|
  UPLOAD_FOLDER := Some "uploads";
  ENV_MODE := Some "backend";
  nfkd := fun s => s;
  int_max_str_digits := 4300;
  int_error := fun _ => "invalid literal";
  logger_name := "main";
  SECRET_KEY := Some "dev";
  save_error := None;
  save_written := None;
  mongodb_error := None;
  insert_one_error := None;
  inserted_id := "65f1c0ffee0123456789abcf";
  find_error := None;
  connect_error := None;
  execute_error := None;
  commit_error := None
|}.

(** A disk that fills up after two bytes of the upload. *)
Definition full_disk_env : Env := {|
  UPLOAD_FOLDER := Some "uploads";
  ENV_MODE := Some "backend";
  nfkd := fun s => s;
  int_max_str_digits := 4300;
  int_error := fun _ => "invalid literal";
  logger_name := "main";
  SECRET_KEY := None;
  save_error := Some "[Errno 28] No space left on device";
  save_written := Some 2;
  mongodb_error := None;
  insert_one_error := None;
  inserted_id := "65f1c0ffee0123456789abcf";
  find_error := None;
  connect_error := None;
  execute_error := None;
  commit_error := None
|}.

(** The world after a forced failure, and after the upload form was then
    requested 250 times. *)
Definition first_record_world : World :=
  (upload_file sample_env forced_request empty_world).1.

Definition forced_failure_line : string :=
  "ERROR:main:Failed: Forced failure triggered." ++ LF.

Definition later_world : World :=
  Nat.iter 250 (fun w => (upload_file sample_env get_request w).1)
    first_record_world.

Definition catalog_down_env : Env :=
  env_with (Some "backend") None (Some "connection to server failed").

Definition crlf_world : World := {|
  uploads := ∅; documents := []; products := []; log := [];
  app_log := String "a" (String (ascii_of_N 13) (String (ascii_of_N 10)
               (String "b" (String (ascii_of_N 13) EmptyString))));
  flashes := []; history := []
|}.

(** ** Properties of the text primitives *)

Lemma contains_app (c : ascii) (s t : string) :
  Py.contains c (s +:+ t) = Py.contains c s || Py.contains c t.
Proof.
  induction s as [|d s IH]; simpl; [reflexivity|].
  rewrite IH. now rewrite orb_assoc.
Qed.

Lemma rsplit_last_None (sep : ascii) (s : string) :
  Py.rsplit_last sep s = None <-> Py.contains sep s = false.
Proof.
  induction s as [|c s IH]; simpl; [tauto|].
  destruct (Py.rsplit_last sep s) as [[a b]|].
  - split; [discriminate|]. intros H. apply orb_false_elim in H as [_ H].
    apply IH in H. discriminate.
  - destruct (Ascii.eqb c sep); simpl; split; try discriminate; tauto.
Qed.

Lemma rsplit_last_Some (sep : ascii) (s before after : string) :
  Py.rsplit_last sep s = Some (before, after) <->
  s = before +:+ String sep after /\ Py.contains sep after = false.
Proof.
  split.
  - revert before. induction s as [|c s IH]; intros before; simpl; [discriminate|].
    destruct (Py.rsplit_last sep s) as [[a b]|] eqn:E.
    + intros [= <- <-]. destruct (IH a eq_refl) as [-> Hb]. now split.
    + destruct (Ascii.eqb c sep) eqn:Ec; [|discriminate].
      intros [= <- <-]. apply Ascii.eqb_eq in Ec as ->.
      split; [reflexivity|]. now apply rsplit_last_None.
  - intros [-> Hb]. induction before as [|c before IH]; simpl.
    + apply rsplit_last_None in Hb. rewrite Hb, Ascii.eqb_refl. reflexivity.
    + now rewrite IH.
Qed.

Lemma allowed_extension (ext : string) :
  ext ∈ ALLOWED_EXTENSIONS <->
  In ext ["txt"; "pdf"; "png"; "jpg"; "jpeg"; "gif"].
Proof.
  unfold ALLOWED_EXTENSIONS. simpl.
  rewrite !elem_of_union, !elem_of_singleton. intuition.
Qed.

(** C9. [allowed_file f] is [True] exactly when [f] contains a dot and the
    text after its last dot, lowercased, is one of txt, pdf, png, jpg,
    jpeg, gif. *)
Theorem allowed_file_spec (f : string) :
  allowed_file f = true <->
  Py.contains "." f = true /\
  exists stem ext : string,
    f = stem +:+ "." +:+ ext /\ Py.contains "." ext = false /\
    In (Py.lower ext) ["txt"; "pdf"; "png"; "jpg"; "jpeg"; "gif"].
Proof.
  unfold allowed_file, Py.rsplit1. split.
  - intros H. apply andb_prop in H as [Hdot H]. split; [exact Hdot|].
    destruct (Py.rsplit_last "." f) as [[stem ext]|] eqn:E; simpl in H;
      [|discriminate].
    apply rsplit_last_Some in E as [-> Hext].
    exists stem, ext. repeat split; [exact Hext|].
    apply allowed_extension. now apply bool_decide_eq_true in H.
  - intros [Hdot (stem & ext & -> & Hext & Hin)].
    assert (E : Py.rsplit_last "." (stem +:+ "." +:+ ext) = Some (stem, ext))
      by (apply rsplit_last_Some; now split).
    rewrite Hdot, E. simpl. apply bool_decide_eq_true. now apply allowed_extension.
Qed.

(** ** The log stream *)

Lemma is_LF_eq (c : ascii) : is_LF c = true -> c = ascii_of_N 10.
Proof.
  unfold is_LF, Py.code. intros H. apply N.eqb_eq in H.
  rewrite <- (ascii_N_embedding c), H. reflexivity.
Qed.

Lemma is_CR_eq (c : ascii) : is_CR c = true -> c = ascii_of_N 13.
Proof.
  unfold is_CR, Py.code. intros H. apply N.eqb_eq in H.
  rewrite <- (ascii_N_embedding c), H. reflexivity.
Qed.

Lemma readline_empty (f rest : string) :
  readline f = (EmptyString, rest) -> f = EmptyString.
Proof.
  destruct f as [|c f]; simpl; [reflexivity|].
  destruct (is_LF c); [discriminate|].
  destruct (readline f); discriminate.
Qed.

Lemma readline_app (f line rest : string) :
  readline f = (line, rest) -> f = line +:+ rest.
Proof.
  revert line rest. induction f as [|c f IH]; intros line rest; simpl.
  - intros [= <- <-]. reflexivity.
  - destruct (is_LF c).
    + intros [= <- <-]. reflexivity.
    + destruct (readline f) as [l r]. intros [= <- <-].
      simpl. f_equal. now apply IH.
Qed.

Lemma readline_shape (f line rest : string) :
  readline f = (line, rest) ->
  line = EmptyString \/ complete_line line
  \/ (open_line line /\ rest = EmptyString).
Proof.
  revert line rest. induction f as [|c f IH]; intros line rest; simpl.
  - intros [= <- <-]. now left.
  - destruct (is_LF c) eqn:Ec.
    + intros [= <- <-]. right. left. exists EmptyString.
      rewrite (is_LF_eq c Ec). now split.
    + destruct (readline f) as [l r] eqn:E. intros [= <- <-]. right.
      destruct (IH l r eq_refl) as [-> | [(body & -> & Hb) | [[Hne Hl] ->]]].
      * right. pose proof (readline_empty _ _ E) as ->. simpl in E.
        injection E as <-. (repeat split); [discriminate|].
        simpl. now rewrite Ec.
      * left. exists (String c body). split; [reflexivity|].
        simpl. now rewrite Ec.
      * right. (repeat split); [discriminate|]. simpl. now rewrite Ec.
Qed.

Lemma generate_step (f : string) :
  generate f =
  match readline f with
  | (EmptyString, _) => []
  | (String c line, rest) => String c line :: generate rest
  end.
Proof.
  apply (generate_elim (fun f chunks =>
    chunks = match readline f with
             | (EmptyString, _) => []
             | (String c line, rest) => String c line :: generate rest
             end)); intros; rewrite e; reflexivity.
Qed.

Lemma generate_body (f : string) : body_of (generate f) = f.
Proof.
  apply (generate_elim (fun f chunks => body_of chunks = f)).
  - intros g rest e _. apply readline_empty in e as ->. reflexivity.
  - intros g c line rest e IH _. simpl. rewrite IH.
    now rewrite (readline_app _ _ _ e).
Qed.

Lemma lines_then_rest_cons (chunk : string) (chunks : list string) :
  complete_line chunk -> lines_then_rest chunks ->
  lines_then_rest (chunk :: chunks).
Proof. destruct chunks; simpl; tauto. Qed.

Lemma generate_lines (f : string) : lines_then_rest (generate f).
Proof.
  apply (generate_elim (fun _ chunks => lines_then_rest chunks)).
  - intros; exact I.
  - intros g c line rest e IH _.
    destruct (readline_shape _ _ _ e) as [H | [H | [H ->]]].
    + discriminate.
    + now apply lines_then_rest_cons.
    + rewrite generate_step. simpl. now right.
Qed.

Lemma append_assoc (a b c : string) : (a +:+ b) +:+ c = a +:+ b +:+ c.
Proof. induction a as [|x a IH]; simpl; [reflexivity|]. now rewrite IH. Qed.

Lemma append_length (a b : string) :
  String.length (a +:+ b) = String.length a + String.length b.
Proof. induction a as [|x a IH]; simpl; [reflexivity|]. now rewrite IH. Qed.

Lemma readline_line (line rest : string) :
  all_chars (fun c => negb (is_LF c)) line = true ->
  readline (line +:+ LF +:+ rest) = (line +:+ LF, rest).
Proof.
  unfold LF. induction line as [|c line IH]; simpl; [reflexivity|].
  intros H. apply andb_prop in H as [Hc H].
  apply negb_true_iff in Hc. simpl in IH. rewrite Hc, (IH H). reflexivity.
Qed.

Lemma generate_line (line rest : string) :
  all_chars (fun c => negb (is_LF c)) line = true ->
  generate (line +:+ LF +:+ rest) = (line +:+ LF) :: generate rest.
Proof.
  intros H. rewrite generate_step, (readline_line _ _ H).
  destruct line; reflexivity.
Qed.

Lemma first_newline (s : string) :
  all_chars (fun c => negb (is_LF c)) s = true
  \/ exists l r : string,
       s = l +:+ LF +:+ r /\ all_chars (fun c => negb (is_LF c)) l = true.
Proof.
  induction s as [|c s IH]; simpl; [now left|].
  destruct (is_LF c) eqn:Ec; simpl.
  - right. exists EmptyString, s. rewrite (is_LF_eq c Ec). now split.
  - destruct IH as [H | (l & r & -> & H)]; [now left|].
    right. exists (String c l), r. simpl. rewrite Ec. now split.
Qed.

Lemma ends_with_append (c d : ascii) (a r : string) :
  Py.ends_with c (a +:+ String d r) = Py.ends_with c (String d r).
Proof.
  induction a as [|x a IH]; [reflexivity|].
  change (Py.ends_with c (String x (a +:+ String d r)) = Py.ends_with c (String d r)).
  rewrite <- IH. simpl. destruct a; reflexivity.
Qed.

Lemma ends_with_LF_has_LF (s : string) :
  Py.ends_with (ascii_of_N 10) s = true ->
  all_chars (fun c => negb (is_LF c)) s = false.
Proof.
  induction s as [|c s IH]; [discriminate|].
  destruct s as [|d s].
  - simpl. intros H. apply Ascii.eqb_eq in H as ->. reflexivity.
  - intros H. change (negb (is_LF c) && all_chars (fun c => negb (is_LF c)) (String d s) = false).
    rewrite (IH H). apply andb_false_r.
Qed.

Lemma at_line_start_tail (l r : string) :
  at_line_start (l +:+ LF +:+ r) = true -> at_line_start r = true.
Proof.
  unfold at_line_start, LF. simpl (String _ EmptyString +:+ r).
  rewrite ends_with_append. destruct l, r; simpl; auto.
Qed.

Lemma generate_skip (n : nat) (before rest x : string) :
  String.length before <= n -> at_line_start before = true ->
  In x (generate rest) -> In x (generate (before +:+ rest)).
Proof.
  revert before. induction n as [|n IH]; intros before Hn Hb Hx.
  - destruct before; [exact Hx | simpl in Hn; lia].
  - destruct before as [|c before]; [exact Hx|].
    destruct (first_newline (String c before)) as [H | (l & r & E & H)].
    + unfold at_line_start in Hb. simpl Py.is_empty in Hb.
      apply ends_with_LF_has_LF in Hb. congruence.
    + rewrite E in *. rewrite !append_assoc, (generate_line _ _ H).
      right. apply IH; [|now apply at_line_start_tail in Hb|exact Hx].
      rewrite !append_length in Hn. unfold LF in Hn. simpl in Hn. lia.
Qed.

Lemma is_CR_eqb (c : ascii) : Ascii.eqb c (ascii_of_N 13) = is_CR c.
Proof.
  destruct (is_CR c) eqn:E.
  - apply is_CR_eq in E as ->. reflexivity.
  - destruct (Ascii.eqb_spec c (ascii_of_N 13)) as [-> |]; [discriminate | reflexivity].
Qed.

Lemma universal_newlines_append (st : bool) (a x : string) :
  universal_newlines st (a +:+ x) =
  universal_newlines st a
  +:+ universal_newlines
        (if Py.is_empty a then st else Py.ends_with (ascii_of_N 13) a) x.
Proof.
  revert st. induction a as [|c a IH]; intros st; [reflexivity|].
  assert (E : (if Py.is_empty (String c a) then st
               else Py.ends_with (ascii_of_N 13) (String c a))
              = if Py.is_empty a then is_CR c
                else Py.ends_with (ascii_of_N 13) a).
  { simpl. rewrite is_CR_eqb. destruct a; reflexivity. }
  rewrite E. simpl. destruct (is_CR c) eqn:Ec.
  - rewrite IH. reflexivity.
  - destruct (is_LF c && st); rewrite IH; reflexivity.
Qed.

Lemma universal_newlines_plain (st : bool) (line : string) :
  all_chars not_newline line = true -> universal_newlines st line = line.
Proof.
  revert st. induction line as [|c line IH]; intros st; simpl; [reflexivity|].
  unfold not_newline at 1. intros H.
  apply andb_prop in H as [Hc H]. apply andb_prop in Hc as [Hlf Hcr].
  apply negb_true_iff in Hlf, Hcr. rewrite Hlf, Hcr. simpl.
  now rewrite IH.
Qed.

Lemma universal_newlines_nonempty (c : ascii) (s : string) :
  universal_newlines false (String c s) <> EmptyString.
Proof.
  simpl. destruct (is_CR c); [discriminate|].
  rewrite andb_false_r. discriminate.
Qed.

Lemma universal_newlines_at_line_start (st : bool) (before : string) :
  at_line_start before = true ->
  at_line_start (universal_newlines st before) = true.
Proof.
  unfold at_line_start.
  revert st. induction before as [|c before IH]; intros st; [reflexivity|].
  simpl Py.is_empty. rewrite orb_false_l. intros H.
  destruct before as [|d before].
  - simpl in H. apply Ascii.eqb_eq in H as ->. destruct st; reflexivity.
  - assert (Hd : Py.is_empty (String d before)
                 || Py.ends_with (ascii_of_N 10) (String d before) = true)
      by exact H.
    pose proof (IH true Hd) as IHt. pose proof (IH false Hd) as IHf.
    pose proof (universal_newlines_nonempty d before) as Hne.
    change (universal_newlines st (String c (String d before)))
      with (if is_CR c
            then String (ascii_of_N 10) (universal_newlines true (String d before))
            else if is_LF c && st then universal_newlines false (String d before)
            else String c (universal_newlines false (String d before))).
    remember (universal_newlines true (String d before)) as yt.
    remember (universal_newlines false (String d before)) as yf.
    clear Heqyt Heqyf IH H Hd.
    destruct (is_CR c).
    + destruct yt; [reflexivity | exact IHt].
    + destruct (is_LF c && st); [exact IHf|].
      destruct yf; [congruence | exact IHf].
Qed.

Lemma ends_with_LF_not_CR (s : string) :
  Py.ends_with (ascii_of_N 10) s = true ->
  Py.ends_with (ascii_of_N 13) s = false.
Proof.
  induction s as [|c s IH]; [discriminate|].
  destruct s as [|d s]; [|exact IH].
  simpl. intros H. apply Ascii.eqb_eq in H as ->. reflexivity.
Qed.

Lemma plain_not_ends_with_CR (line : string) :
  all_chars not_newline line = true ->
  Py.ends_with (ascii_of_N 13) line = false.
Proof.
  induction line as [|c line IH]; [reflexivity|].
  simpl all_chars. intros H. apply andb_prop in H as [Hc H].
  destruct line as [|d line]; [|exact (IH H)].
  simpl. rewrite is_CR_eqb. unfold not_newline in Hc.
  apply andb_prop in Hc as [_ Hc]. now apply negb_true_iff in Hc.
Qed.

Lemma plain_no_LF (line : string) :
  all_chars not_newline line = true ->
  all_chars (fun c => negb (is_LF c)) line = true.
Proof.
  induction line as [|c line IH]; simpl; [reflexivity|].
  intros H. apply andb_prop in H as [Hc H]. rewrite (IH H).
  unfold not_newline in Hc. apply andb_prop in Hc as [-> _]. reflexivity.
Qed.

Lemma open_text_line (before line after : string) :
  at_line_start before = true -> all_chars not_newline line = true ->
  open_text (before +:+ line +:+ LF +:+ after) =
  open_text before +:+ line +:+ LF +:+ open_text after.
Proof.
  intros Hb Hl. unfold open_text.
  rewrite universal_newlines_append.
  assert (E1 : (if Py.is_empty before then false
                else Py.ends_with (ascii_of_N 13) before) = false).
  { unfold at_line_start in Hb. destruct before; [reflexivity|].
    simpl in Hb. simpl Py.is_empty. now apply ends_with_LF_not_CR. }
  rewrite E1, universal_newlines_append.
  assert (E2 : (if Py.is_empty line then false
                else Py.ends_with (ascii_of_N 13) line) = false).
  { destruct line; [reflexivity|]. simpl Py.is_empty.
    now apply plain_not_ends_with_CR. }
  rewrite E2, (universal_newlines_plain _ _ Hl). reflexivity.
Qed.

Lemma at_line_start_append_line (content line : string) :
  at_line_start (content +:+ line +:+ LF) = true.
Proof.
  unfold at_line_start, LF.
  rewrite <- append_assoc, ends_with_append.
  destruct (content +:+ line); reflexivity.
Qed.

Lemma emitted_line (name content : string) (lvl : Level) (msg : string) :
  at_line_start content = true ->
  exists before : string,
    handler_emit name content lvl msg
    = before +:+ format_record name lvl msg +:+ LF +:+ ""
    /\ at_line_start before = true
    /\ at_line_start (handler_emit name content lvl msg) = true.
Proof.
  intros H. unfold handler_emit.
  destruct (maxBytes <=? _)%N.
  - exists "". split; [reflexivity|]. split; [reflexivity|].
    apply (at_line_start_append_line "").
  - exists content. split; [reflexivity|]. split; [exact H|].
    apply at_line_start_append_line.
Qed.

(** C8. For every state of app.log, [watch_logs] answers with a finite
    list of chunks, the result of the total function [generate] on the text
    the file shows: put together the chunks are that text, each chunk is
    one line with its newline except possibly the last one, which is then
    the unterminated rest, and a line that stands in the file is one of the
    chunks.  The world is left as it was.  The line of a record that
    [logger] handled just before is in the file, hence among the chunks:
    the handler has appended it, or has begun a new file with it. *)
Theorem watch_logs_single_pass (w : World) :
  exists chunks : list string,
    watch_logs w = (w, inr (Stream chunks "text/plain"))
    /\ chunks = generate (open_text (app_log w))
    /\ body_of chunks = open_text (app_log w)
    /\ lines_then_rest chunks
    /\ (forall before line after : string,
          app_log w = before +:+ line +:+ LF +:+ after ->
          at_line_start before = true ->
          all_chars not_newline line = true ->
          In (line +:+ LF) chunks)
    /\ (forall (env : Env) (lvl : Level) (msg : string),
          at_line_start (app_log w) = true ->
          all_chars not_newline (format_record (logger_name env) lvl msg) = true ->
          exists chunks' : list string,
            watch_logs (logged env lvl msg w)
            = (logged env lvl msg w, inr (Stream chunks' "text/plain"))
            /\ In (format_record (logger_name env) lvl msg +:+ LF) chunks'
            /\ at_line_start (app_log (logged env lvl msg w)) = true).
Proof.
  exists (generate (open_text (app_log w))).
  split; [reflexivity|]. split; [reflexivity|].
  split; [apply generate_body|]. split; [apply generate_lines|].
  assert (Hline : forall content before line after : string,
            content = before +:+ line +:+ LF +:+ after ->
            at_line_start before = true ->
            all_chars not_newline line = true ->
            In (line +:+ LF) (generate (open_text content))).
  { intros content before line after E Hb Hl.
    rewrite E, (open_text_line _ _ _ Hb Hl).
    apply (generate_skip (String.length (open_text before))); [lia| |].
    - now apply universal_newlines_at_line_start.
    - rewrite (generate_line _ _ (plain_no_LF _ Hl)). now left. }
  split; [intros before line after; apply Hline|].
  intros env lvl msg Hstart Hmsg.
  destruct (emitted_line (logger_name env) (app_log w) lvl msg Hstart)
    as (before & E & Hb & Hafter).
  exists (generate (open_text (app_log (logged env lvl msg w)))).
  split; [reflexivity|]. split; [|exact Hafter].
  exact (Hline _ _ _ _ E Hb Hmsg).
Qed.

Lemma not_in_by_eqb (x : string) (l : list string) :
  existsb (String.eqb x) l = false -> ~ In x l.
Proof.
  intros H Hin. apply Bool.not_true_iff_false in H. apply H.
  apply existsb_exists. exists x. split; [exact Hin | apply String.eqb_refl].
Qed.

(** C8 (as stated) fails: a record logged before the request is gone from
    the stream once the handler has rotated app.log.  The error record of
    a forced failure is streamed right after it; after 250 further
    requests of the upload form the file holds the last ten lines only. *)
Lemma rotated_line_is_not_streamed :
  In (ERROR, "Failed: Forced failure triggered.") (log later_world)
  /\ In forced_failure_line (generate (open_text (app_log first_record_world)))
  /\ exists chunks : list string,
       watch_logs later_world = (later_world, inr (Stream chunks "text/plain"))
       /\ length chunks = 10
       /\ ~ In forced_failure_line chunks.
Proof.
  split; [vm_compute; tauto|]. split; [vm_compute; tauto|].
  exists (generate (open_text (app_log later_world))).
  split; [reflexivity|]. split; [vm_compute; reflexivity|].
  apply not_in_by_eqb. vm_compute. reflexivity.
Qed.

(** ** Sanitised names *)

Lemma all_chars_filter (p : ascii -> bool) (s : string) :
  all_chars p (Py.filter_chars p s) = true.
Proof.
  induction s as [|c s IH]; simpl; [reflexivity|].
  destruct (p c) eqn:E; simpl; [rewrite E|]; exact IH.
Qed.

Lemma all_chars_lstrip (p drop : ascii -> bool) (s : string) :
  all_chars p s = true -> all_chars p (Py.lstrip drop s) = true.
Proof.
  induction s as [|c s IH]; simpl; [reflexivity|].
  intros H. destruct (drop c); [|exact H].
  apply andb_prop in H as [_ H]. exact (IH H).
Qed.

Lemma all_chars_rstrip (p drop : ascii -> bool) (s : string) :
  all_chars p s = true -> all_chars p (Py.rstrip drop s) = true.
Proof.
  induction s as [|c s IH]; simpl; [reflexivity|].
  intros H. apply andb_prop in H as [Hc H]. specialize (IH H).
  destruct (Py.rstrip drop s).
  - destruct (drop c); simpl; [reflexivity | now rewrite Hc].
  - simpl in *. now rewrite Hc.
Qed.

Lemma lstrip_first (drop : ascii -> bool) (s : string) (c : ascii) :
  first_char (Py.lstrip drop s) = Some c -> drop c = false.
Proof.
  induction s as [|d s IH]; simpl; [discriminate|].
  destruct (drop d) eqn:E; [exact IH|].
  simpl. now intros [= <-].
Qed.

Lemma rstrip_first (drop : ascii -> bool) (s : string) (c : ascii) :
  first_char (Py.rstrip drop s) = Some c -> first_char s = Some c.
Proof.
  destruct s as [|d s]; simpl; [discriminate|].
  destruct (Py.rstrip drop s); [destruct (drop d)|]; simpl; congruence.
Qed.

Lemma all_chars_contains (p : ascii -> bool) (c : ascii) (s : string) :
  all_chars p s = true -> p c = false -> Py.contains c s = false.
Proof.
  intros H Hc. induction s as [|d s IH]; simpl; [reflexivity|].
  simpl in H. apply andb_prop in H as [Hd H]. rewrite (IH H), orb_false_r.
  destruct (Ascii.eqb_spec d c) as [-> |]; [congruence | reflexivity].
Qed.

Lemma secure_filename_traversal_free (normalize : string -> string)
    (filename : string) :
  traversal_free (Werkzeug.secure_filename normalize filename).
Proof.
  unfold Werkzeug.secure_filename, Py.strip.
  set (kept := Py.filter_chars Werkzeug.is_filename_char _).
  set (dots := fun c : ascii => Py.contains c "._").
  assert (Hall : all_chars Werkzeug.is_filename_char
                   (Py.rstrip dots (Py.lstrip dots kept)) = true).
  { apply all_chars_rstrip, all_chars_lstrip, all_chars_filter. }
  assert (Hfirst : first_char (Py.rstrip dots (Py.lstrip dots kept))
                   <> Some "."%char).
  { intros H. apply rstrip_first, lstrip_first in H. discriminate. }
  repeat split; try exact Hall; try exact Hfirst.
  - now apply (all_chars_contains _ _ _ Hall).
  - now apply (all_chars_contains _ _ _ Hall).
  - intros E. rewrite E in Hfirst. now apply Hfirst.
  - intros E. rewrite E in Hfirst. now apply Hfirst.
Qed.

Lemma filename_char_url_safe (c : ascii) :
  Werkzeug.is_filename_char c = true -> Werkzeug.is_url_safe c = true.
Proof.
  destruct c as [[] [] [] [] [] [] [] []]; vm_compute; congruence.
Qed.

Lemma quote_filename (s : string) :
  all_chars Werkzeug.is_filename_char s = true -> Werkzeug.quote s = s.
Proof.
  induction s as [|c s IH]; simpl; [reflexivity|].
  intros H. apply andb_prop in H as [Hc H].
  unfold Werkzeug.quote_char. rewrite (filename_char_url_safe c Hc), (IH H).
  reflexivity.
Qed.

Lemma url_for_secure_filename (normalize : string -> string) (filename : string) :
  Werkzeug.url_for_download_file (Werkzeug.secure_filename normalize filename)
  = "/uploads/" +:+ Werkzeug.secure_filename normalize filename.
Proof.
  unfold Werkzeug.url_for_download_file. rewrite quote_filename; [reflexivity|].
  apply secure_filename_traversal_free.
Qed.

(** ** Form fields *)

Lemma multidict_get_without_other (key k : string) (d : list (string * string)) :
  k <> key ->
  multidict_get k (List.filter (fun kv => negb (String.eqb (fst kv) key)) d)
  = multidict_get k d.
Proof.
  intros Hk. induction d as [|[k' v] d IH]; simpl; [reflexivity|].
  destruct (String.eqb_spec k' key) as [-> | Hk']; simpl.
  - rewrite IH. destruct (String.eqb_spec key k); [congruence | reflexivity].
  - now rewrite IH.
Qed.

Lemma multidict_get_without_same (key : string) (d : list (string * string)) :
  multidict_get key (List.filter (fun kv => negb (String.eqb (fst kv) key)) d)
  = None.
Proof.
  induction d as [|[k' v] d IH]; simpl; [reflexivity|].
  destruct (String.eqb_spec k' key) as [-> | Hk']; simpl; [exact IH|].
  destruct (String.eqb_spec k' key); [congruence | exact IH].
Qed.

Lemma is_str_other (x : option string) (s : string) :
  x <> Some s -> is_str x s = false.
Proof.
  destruct x as [t|]; simpl; [|reflexivity].
  intros H. destruct (String.eqb_spec t s); [congruence | reflexivity].
Qed.

(** ** Running the upload handler *)

#[local] Arguments allowed_file : simpl never.
#[local] Arguments Werkzeug.secure_filename : simpl never.
#[local] Arguments Werkzeug.url_for_download_file : simpl never.
#[local] Arguments Py.os_path_join : simpl never.
#[local] Arguments Py.int : simpl never.
#[local] Arguments uploaded_page : simpl never.
#[local] Arguments multidict_get : simpl never.
#[local] Arguments is_str : simpl never.
#[local] Arguments String.eqb : simpl never.
#[local] Arguments has_session : simpl never.

Ltac unfold_handlers :=
  unfold upload_file, upload_try, render_upload_form, show_uploaded_images,
    try_except, file_save, insert_one, find_all, create_mongodb_connection,
    psycopg2_connect, cur_execute, conn_commit, upload_path, int_of,
    logger_info, logger_error, logger_record, flash, modify, gets,
    guard_error, mbind, M_bind, bind, mret, M_ret, ret, raise.

(** C4. A POST whose [force_failure] field is "true" fails whatever the
    other fields are: no file is written, nothing is inserted in either
    store and the error is logged.  With a session the error is flashed
    and the client is redirected to the form; as [main.py] configures the
    application there is none, the [flash] of the [except] clause raises
    and the client gets that exception instead of the redirect. *)
Theorem forced_failure_writes_nothing (env : Env) (request : Request) (w : World) :
  method request = POST ->
  multidict_get "force_failure" (form request) = Some "true" ->
  stores (upload_file env request w).1 = stores w
  /\ history (upload_file env request w).1 = history w
  /\ log (upload_file env request w).1
     = log w ++ [(INFO, "Accessed the upload file page.");
                 (INFO, "Received a POST request to upload a file.");
                 (ERROR, "Failed: Forced failure triggered.")]
  /\ (has_session env = true ->
      (upload_file env request w).2 = inr (Redirect (url request))
      /\ flashes (upload_file env request w).1
         = flashes w ++ ["An error occurred: Forced failure triggered."])
  /\ (has_session env = false ->
      (upload_file env request w).2 = inl (RuntimeError session_unavailable)
      /\ flashes (upload_file env request w).1 = flashes w).
Proof.
  intros Hpost Hforce. unfold_handlers. rewrite Hpost, Hforce. simpl.
  destruct (has_session env); simpl; rewrite <- !app_assoc;
    repeat split; intros; try discriminate; reflexivity.
Qed.

Ltac case_on t := let E := fresh "E" in destruct t eqn:E; simpl.

(** Follows [upload_file] through its tests, in program order. *)
Ltac upload_cases :=
  repeat match goal with
  | |- context [method ?r] => case_on (method r)
  | |- context [is_str (multidict_get "force_failure" ?f) "true"] =>
      case_on (is_str (multidict_get "force_failure" f) "true")
  | |- context [multidict_get "file" ?f] => case_on (multidict_get "file" f)
  | |- context [String.eqb (filename ?f) ""] =>
      case_on (String.eqb (filename f) "")
  | |- context [Py.is_empty (filename ?f)] => case_on (Py.is_empty (filename f))
  | |- context [allowed_file ?f] => case_on (allowed_file f)
  | |- context [UPLOAD_FOLDER ?e] => case_on (UPLOAD_FOLDER e)
  | |- context [save_error ?e] => case_on (save_error e)
  | |- context [save_written ?e] => case_on (save_written e)
  | |- context [mongodb_error ?e] => case_on (mongodb_error e)
  | |- context [insert_one_error ?e] => case_on (insert_one_error e)
  | |- context [connect_error ?e] => case_on (connect_error e)
  | |- context [multidict_get "initial_stock_count" ?f] =>
      case_on (multidict_get "initial_stock_count" f)
  | |- context [Py.int ?m ?s] => case_on (Py.int m s)
  | |- context [execute_error ?e] => case_on (execute_error e)
  | |- context [commit_error ?e] => case_on (commit_error e)
  | |- context [is_str (ENV_MODE ?e) "backend"] =>
      case_on (is_str (ENV_MODE e) "backend")
  | |- context [has_session ?e] => case_on (has_session e)
  end.

Lemma no_new_effects (A : Type) (l new : list A) : l = l ++ new -> new = [].
Proof.
  intros H. rewrite <- (app_nil_r l) in H at 1. now apply app_inv_head in H.
Qed.

Lemma is_str_same (s : string) : is_str (Some s) s = true.
Proof. unfold is_str. apply String.eqb_refl. Qed.


(** C3 (what the handler does). A POST with a file whose name is not
    empty and whose extension is not allowed writes nothing, as the
    specification says; but the handler then leaves the [try] block and
    renders the upload form: nothing is flashed, no error is logged and
    the answer is not a redirect. *)
Theorem disallowed_extension_renders_form (env : Env) (request : Request)
    (w : World) (file : FileStorage) :
  method request = POST ->
  multidict_get "force_failure" (form request) <> Some "true" ->
  multidict_get "file" (files request) = Some file ->
  filename file <> "" ->
  allowed_file (filename file) = false ->
  exists w' : World,
    upload_file env request w = (w', inr (Template "upload_image.html" []))
    /\ stores w' = stores w
    /\ history w' = history w
    /\ flashes w' = flashes w
    /\ log w' = log w ++ [(INFO, "Accessed the upload file page.");
                          (INFO, "Received a POST request to upload a file.")].
Proof.
  intros Hpost Hforce Hfile Hname Hext.
  apply String.eqb_neq in Hname. apply is_str_other in Hforce.
  unfold_handlers. rewrite Hpost, Hforce, Hfile, Hname, Hext, andb_false_r.
  simpl. eexists. split; [reflexivity|]. simpl.
  rewrite <- !app_assoc. repeat split.
Qed.

(** C1. A POST in backend mode whose three writes all happen answers with
    [{"filename": N, "img_url": "/uploads/" + N}], where [N] is the
    sanitised name of the file, which had an allowed extension; and in any
    later world that still holds the documents, [show_uploaded_images] in
    backend mode lists an entry whose [image_url] is ["/uploads/" + N]. *)
Theorem backend_upload_then_listing (env : Env) (request : Request) (w : World) :
  method request = POST ->
  ENV_MODE env = Some "backend" ->
  (exists path content d row,
     history (upload_file env request w).1
     = history w ++ [FileSaved path content; DocumentInserted d;
                     ProductInserted row]) ->
  exists file : FileStorage,
    multidict_get "file" (files request) = Some file
    /\ allowed_file (filename file) = true
    /\ (upload_file env request w).2
       = inr (Jsonify
           [("filename", Werkzeug.secure_filename (nfkd env) (filename file));
            ("img_url",
             "/uploads/" +:+ Werkzeug.secure_filename (nfkd env) (filename file))])
    /\ forall (env' : Env) (later : World),
         ENV_MODE env' = Some "backend" ->
         mongodb_error env' = None -> find_error env' = None ->
         (forall d, In d (documents (upload_file env request w).1) ->
                    In d (documents later)) ->
         exists data : list dict,
           (show_uploaded_images env' later).2 = inr (DumpsData data)
           /\ In [("image_url",
                   "/uploads/" +:+ Werkzeug.secure_filename (nfkd env) (filename file))]
                 data.
Proof.
  intros Hpost Hmode (path & content & d & row & Hh). revert Hh.
  unfold upload_file at 1 2 3, upload_try.
  unfold try_except, file_save, insert_one, create_mongodb_connection,
    psycopg2_connect, cur_execute, conn_commit, upload_path, int_of,
    render_upload_form, logger_info, logger_error, logger_record, flash,
    modify, guard_error, mbind, M_bind, bind, mret, M_ret, ret, raise.
  rewrite Hpost, Hmode, is_str_same. simpl. upload_cases.
  all: rewrite <- ?app_assoc; simpl; intros Hh.
  all: try (apply no_new_effects in Hh; discriminate).
  all: try (apply app_inv_head in Hh; discriminate).
  eexists. split; [reflexivity|].
  split; [match goal with H : allowed_file _ = true |- _ => exact H end|].
  rewrite url_for_secure_filename. split; [reflexivity|].
  intros env' later Hmode' Hmongo Hfind Hlater.
  unfold_handlers. rewrite Hmode', Hmongo, Hfind, is_str_same. simpl.
  eexists. split; [reflexivity|].
  apply in_map_iff.
  eexists {| doc_id := inserted_id env; file_path := _ |}.
  simpl. rewrite url_for_secure_filename. split; [reflexivity|].
  apply Hlater. apply in_or_app. right. now left.
Qed.

Lemma os_path_join_inside (folder name : string) :
  Py.contains "/" name = false ->
  Py.os_path_join folder name = folder +:+ name
  \/ Py.os_path_join folder name = folder +:+ "/" +:+ name.
Proof.
  intros H. unfold Py.os_path_join.
  assert (E : Py.starts_with "/" name = false).
  { destruct name as [|c name]; [reflexivity|]. simpl in *.
    now apply orb_false_elim in H as [H _]. }
  rewrite E. destruct (Py.is_empty folder || Py.ends_with "/" folder); auto.
Qed.

Ltac use_effects :=
  repeat match goal with
  | H : In _ [] |- _ => destruct H
  | H : In _ (_ :: _) |- _ => destruct H as [H | H]
  | H : False |- _ => destruct H
  | H : FileSaved _ _ = FileSaved _ _ |- _ => injection H as <- <-
  | H : DocumentInserted _ = DocumentInserted _ |- _ => injection H as <-
  | H : ProductInserted _ = ProductInserted _ |- _ => injection H as <-
  | H : @inr exn Response _ = inr _ |- _ => injection H as H
  | H : Jsonify _ = Jsonify _ |- _ => injection H as <-
  | H : Html _ = Html _ |- _ => injection H as <-
  | H : _ = _ |- _ => discriminate H
  end.

(** C5. The name under which an upload is written to disk, recorded in
    the document store and put in the answer is the sanitised form of the
    submitted name: it consists of letters, digits, [_], [.] and [-] only,
    so it has no path separator, and it does not start with a dot, so it
    is neither [.] nor [..]; the file lands directly in the upload
    folder. *)
Theorem stored_name_is_sanitised (env : Env) (request : Request) (w : World)
    (file : FileStorage) :
  multidict_get "file" (files request) = Some file ->
  let N := Werkzeug.secure_filename (nfkd env) (filename file) in
  traversal_free N
  /\ exists new : list Effect,
       history (upload_file env request w).1 = history w ++ new
       /\ (forall path content, In (FileSaved path content) new ->
             exists folder,
               UPLOAD_FOLDER env = Some folder
               /\ path = Py.os_path_join folder N
               /\ (path = folder +:+ N \/ path = folder +:+ "/" +:+ N))
       /\ (forall d, In (DocumentInserted d) new -> file_path d = N)
       /\ (forall body, (upload_file env request w).2 = inr (Jsonify body) ->
             body = [("filename", N); ("img_url", "/uploads/" +:+ N)])
       /\ (forall page, (upload_file env request w).2 = inr (Html page) ->
             page = uploaded_page N ("/uploads/" +:+ N)).
Proof.
  intros Hfile N.
  assert (HN : traversal_free N) by apply secure_filename_traversal_free.
  split; [exact HN|].
  pose proof (fun folder => os_path_join_inside folder N (proj1 (proj2 HN)))
    as Hjoin.
  unfold_handlers. rewrite Hfile, !url_for_secure_filename. fold N. simpl.
  upload_cases.
  all: rewrite <- ?app_assoc; simpl.
  all: first [ eexists; split; [reflexivity|]
             | exists []; rewrite app_nil_r; split; [reflexivity|] ].
  all: repeat split; intros; use_effects; eauto.
Qed.

(** C6 (as the handler behaves). Every product row [upload_file] creates
    has as [stock_count] the integer that [int] reads from the
    [initial_stock_count] field, whatever its sign; a request whose field
    is missing or is not an integer literal creates no row. *)
Theorem product_row_stock_is_parsed_count (env : Env) (request : Request)
    (w : World) (new : list Effect) (row : Product) :
  history (upload_file env request w).1 = history w ++ new ->
  In (ProductInserted row) new ->
  stock_count_of env request = Some (stock_count row)
  /\ In row (products (upload_file env request w).1).
Proof.
  unfold stock_count_of, upload_file at 1 2, upload_try.
  unfold try_except, file_save, insert_one, create_mongodb_connection,
    psycopg2_connect, cur_execute, conn_commit, upload_path, int_of,
    render_upload_form, logger_info, logger_error, logger_record, flash,
    modify, guard_error, mbind, M_bind, bind, mret, M_ret, ret, raise.
  simpl. upload_cases.
  all: rewrite <- ?app_assoc; simpl; intros Hh Hin.
  all: try (apply no_new_effects in Hh; subst new; destruct Hin).
  all: apply app_inv_head in Hh; subst new; use_effects.
  all: split; [reflexivity|]; apply in_or_app; right; now left.
Qed.

(** C7. In a POST, an exception raised in the [try] block is caught: the
    handler logs it and leaves the stores as they were when the exception
    was raised.  With a session it then flashes the error and redirects to
    the form; as [main.py] configures the application there is none, the
    [flash] of the [except] clause raises and that exception leaves the
    view.  Every failing step of an accepted upload (no folder, a store
    call that raises, a stock count [int] rejects) ends this way.  In
    particular, when the run stops after the file and the document were
    written, both are still there and no product row exists for them. *)
Theorem upload_failure_keeps_partial_writes (env : Env) (request : Request)
    (w : World) :
  method request = POST ->
  (forall (w1 : World) (e : exn),
     upload_try env request (logged env INFO "Accessed the upload file page." w)
     = (w1, inl e) ->
     upload_file env request w
     = (after_failure env e w1, failure_outcome env request)
     /\ stores (after_failure env e w1) = stores w1
     /\ history (after_failure env e w1) = history w1
     /\ log (after_failure env e w1) = log w1 ++ [(ERROR, "Failed: " +:+ str e)])
  /\ (forall file : FileStorage,
        multidict_get "force_failure" (form request) <> Some "true" ->
        multidict_get "file" (files request) = Some file ->
        filename file <> "" ->
        allowed_file (filename file) = true ->
        UPLOAD_FOLDER env = None \/ save_error env <> None
        \/ mongodb_error env <> None \/ insert_one_error env <> None
        \/ connect_error env <> None \/ stock_count_of env request = None
        \/ execute_error env <> None \/ commit_error env <> None ->
        exists (text : string) (earlier : list (Level * string)),
          ends_failed env request text w (upload_file env request w)
          /\ log (upload_file env request w).1
             = earlier ++ [(ERROR, "Failed: " +:+ text)]
          /\ products (upload_file env request w).1 = products w)
  /\ (forall (path content : string) (d : Document),
        history (upload_file env request w).1
        = history w ++ [FileSaved path content; DocumentInserted d] ->
        exists (text : string) (earlier : list (Level * string)),
          ends_failed env request text w (upload_file env request w)
          /\ log (upload_file env request w).1
             = earlier ++ [(ERROR, "Failed: " +:+ text)]
          /\ uploads (upload_file env request w).1 !! path = Some content
          /\ In d (documents (upload_file env request w).1)
          /\ products (upload_file env request w).1 = products w).
Proof.
  intros Hpost. unfold ends_failed, failure_outcome. split; [|split].
  - intros w1 e Htry.
    unfold upload_file, try_except, logger_info, logger_record, modify,
      mbind, M_bind, bind.
    rewrite Hpost, Htry. unfold after_failure, logger_error, logger_record,
      flash, modify, raise, mret, M_ret, ret.
    destruct (has_session env); simpl; repeat split.
  - intros file Hforce Hfile Hname Hext Hfault.
    apply String.eqb_neq in Hname. apply is_str_other in Hforce.
    unfold stock_count_of in Hfault.
    unfold_handlers.
    rewrite Hpost, Hforce, Hfile, Hname, Hext. simpl.
    upload_cases.
    all: try (exists (int_error env None); eexists; repeat split; fail).
    all: try (eexists; eexists; repeat split; fail).
    all: try (destruct (filename file); discriminate).
    all: repeat match goal with
         | E : _ = _ |- _ => rewrite E in Hfault; clear E
         end.
    all: repeat (destruct Hfault as [Hfault | Hfault]; try congruence).
  - intros path content d. unfold_handlers. rewrite Hpost. simpl.
    upload_cases.
    all: intros Hh; rewrite <- ?app_assoc in Hh; simpl in Hh.
    all: try (apply no_new_effects in Hh; discriminate).
    all: apply app_inv_head in Hh; try discriminate.
    all: injection Hh as <- <- <-.
    all: eexists; eexists; (repeat split);
      [apply lookup_insert_eq | apply in_or_app; right; now left].
Qed.

(** C10. The forced failure is triggered by the exact value "true" only:
    when the [force_failure] field is absent or holds anything else, the
    handler does what it does for the same request without that field. *)
Theorem force_failure_needs_exact_true (env : Env) (request : Request)
    (w : World) :
  multidict_get "force_failure" (form request) <> Some "true" ->
  upload_file env request w
  = upload_file env (without_field "force_failure" request) w.
Proof.
  intros H. apply is_str_other in H.
  unfold upload_file, upload_try, without_field. simpl.
  rewrite H, multidict_get_without_same.
  rewrite !multidict_get_without_other by discriminate.
  reflexivity.
Qed.

(** ** The properties on the sample inputs *)

Example allowed_file_samples :
  map allowed_file ["photo.png"; "malware.exe"; "x.PNG"; ".gif"; "a.png."; "png";
                    "../../etc/passwd"]
  = [true; false; true; true; false; false; false].
Proof. reflexivity. Qed.

Example secure_filename_samples :
  map (Werkzeug.secure_filename (fun s => s))
    ["../../etc/passwd"; "../../etc/passwd.png"; "photo.png"; ".png"; "a b.png"]
  = ["etc_passwd"; "etc_passwd.png"; "photo.png"; "png"; "a_b.png"].
Proof. reflexivity. Qed.

Example int_samples :
  map (Py.int 4300) ["5"; " 5 "; "+5"; "-5"; "- 5"; "1_000"; "_1"; "five"; ""]
  = [Some 5; Some 5; Some 5; Some (-5); None; Some 1000; None; None; None]%Z.
Proof. reflexivity. Qed.

Example generate_sample :
  generate (open_text ("a" +:+ LF +:+ "bc" +:+ String (ascii_of_N 13) LF +:+ "d"))
  = ["a" +:+ LF; "bc" +:+ LF; "d"].
Proof. reflexivity. Qed.

Lemma photo_upload_witness :
  (upload_file sample_env photo_request empty_world).2
  = inr (Jsonify [("filename", "photo.png"); ("img_url", "/uploads/photo.png")])
  /\ exists data : list dict,
       (show_uploaded_images sample_env
          (upload_file sample_env photo_request empty_world).1).2
       = inr (DumpsData data)
       /\ In [("image_url", "/uploads/photo.png")] data.
Proof.
  assert (Hh : exists path content d row,
            history (upload_file sample_env photo_request empty_world).1
            = history empty_world
              ++ [FileSaved path content; DocumentInserted d; ProductInserted row])
    by (do 4 eexists; reflexivity).
  destruct (backend_upload_then_listing sample_env photo_request empty_world
              eq_refl eq_refl Hh) as (file & Hfile & _ & Hresp & Hlist).
  injection Hfile as <-.
  split; [exact Hresp|].
  apply (Hlist sample_env); auto.
Defined.

Lemma malware_upload_witness :
  exists w' : World,
    upload_file sample_env malware_request empty_world
    = (w', inr (Template "upload_image.html" []))
    /\ flashes w' = [] /\ history w' = [].
Proof.
  destruct (disallowed_extension_renders_form sample_env malware_request
              empty_world {| filename := "malware.exe"; stream := "bytes" |}
              eq_refl ltac:(discriminate) eq_refl ltac:(discriminate) eq_refl)
    as (w' & Hrun & _ & Hh & Hf & _).
  exists w'. auto.
Defined.

Lemma forced_failure_witness :
  (upload_file sample_env forced_request empty_world).2
  = inl (RuntimeError session_unavailable)
  /\ history (upload_file sample_env forced_request empty_world).1 = []
  /\ flashes (upload_file sample_env forced_request empty_world).1 = [].
Proof.
  destruct (forced_failure_writes_nothing sample_env forced_request empty_world
              eq_refl eq_refl) as (_ & Hh & _ & _ & Hno).
  destruct (Hno eq_refl) as (Hr & Hf).
  split; [exact Hr|]. split; [exact Hh | exact Hf].
Defined.

Lemma traversal_upload_witness :
  Werkzeug.secure_filename (nfkd sample_env) "../../etc/passwd.png"
  = "etc_passwd.png"
  /\ traversal_free "etc_passwd.png"
  /\ uploads (upload_file sample_env traversal_request empty_world).1
     !! "uploads/etc_passwd.png" = Some "bytes".
Proof.
  split; [reflexivity|]. split; [|reflexivity].
  exact (proj1 (stored_name_is_sanitised sample_env traversal_request empty_world
                  {| filename := "../../etc/passwd.png"; stream := "bytes" |}
                  eq_refl)).
Defined.

Lemma negative_stock_witness :
  stock_count_of sample_env negative_stock_request = Some (-5)%Z
  /\ In negative_row
       (products (upload_file sample_env negative_stock_request empty_world).1).
Proof.
  apply (product_row_stock_is_parsed_count sample_env negative_stock_request
           empty_world
           [FileSaved "uploads/photo.png" "bytes"; DocumentInserted photo_document;
            ProductInserted negative_row] negative_row).
  - reflexivity.
  - right. right. left. reflexivity.
Defined.

(** C6 (as stated) fails: with [initial_stock_count] "-5" the handler
    stores a row whose [stock_count] is -5. *)
Lemma negative_stock_count_is_stored :
  ~ (forall row : Product,
       In row (products (upload_file sample_env negative_stock_request
                           empty_world).1) ->
       (0 <= stock_count row)%Z).
Proof.
  intros H. specialize (H negative_row).
  assert (Hin : In negative_row
            (products (upload_file sample_env negative_stock_request
                         empty_world).1)) by (left; reflexivity).
  apply H in Hin. simpl in Hin. lia.
Qed.

Lemma bad_stock_count_witness :
  (upload_file sample_env bad_stock_request empty_world).2
  = inl (RuntimeError session_unavailable)
  /\ uploads (upload_file sample_env bad_stock_request empty_world).1
     !! "uploads/photo.png" = Some "bytes"
  /\ In photo_document
       (documents (upload_file sample_env bad_stock_request empty_world).1)
  /\ products (upload_file sample_env bad_stock_request empty_world).1 = [].
Proof.
  destruct (upload_failure_keeps_partial_writes sample_env bad_stock_request
              empty_world eq_refl) as (_ & _ & H).
  destruct (H "uploads/photo.png" "bytes" photo_document eq_refl)
    as (text & earlier & (Hr & _) & _ & Hu & Hd & Hp).
  auto.
Defined.

Lemma capital_flag_witness :
  upload_file sample_env capital_flag_request empty_world
  = upload_file sample_env (without_field "force_failure" capital_flag_request)
      empty_world
  /\ (upload_file sample_env capital_flag_request empty_world).2
     = inr (Jsonify [("filename", "photo.png"); ("img_url", "/uploads/photo.png")]).
Proof.
  split; [|reflexivity].
  apply (force_failure_needs_exact_true sample_env capital_flag_request
           empty_world).
  discriminate.
Defined.

(** ** More on the upload handler *)

Lemma allowed_file_nonempty (f : string) :
  allowed_file f = true -> String.eqb f "" = false /\ Py.is_empty f = false.
Proof.
  unfold allowed_file. destruct f; [discriminate|]. intros _. now split.
Qed.

Lemma accepted_steps (env : Env) (request : Request) (file : FileStorage)
    (folder : string) (n : Z) :
  accepted env request file folder n ->
  save_error env = None /\ mongodb_error env = None
  /\ insert_one_error env = None /\ connect_error env = None
  /\ (exists s, multidict_get "initial_stock_count" (form request) = Some s
                /\ Py.int (int_max_str_digits env) s = Some n)
  /\ execute_error env = None /\ commit_error env = None.
Proof.
  unfold accepted, disk_failure, metadata_failure, catalog_failure,
    stock_count_of.
  intros (_ & Hfolder & Hdisk & Hmeta & Hcat & Hn).
  rewrite Hfolder in Hdisk.
  destruct (mongodb_error env); [discriminate|].
  destruct (connect_error env); [discriminate|].
  destruct (multidict_get "initial_stock_count" (form request)) as [s|];
    [|discriminate].
  destruct (Py.int (int_max_str_digits env) s) as [m|] eqn:Hint; [|discriminate].
  destruct (execute_error env); [discriminate|].
  injection Hn as ->. simpl in *. repeat split; eauto.
Qed.

(** A request whose method is not POST gets the upload form: nothing is
    written or flashed, and one record is logged. *)
Theorem other_methods_render_form (env : Env) (request : Request) (w : World) :
  method request <> POST ->
  exists w' : World,
    upload_file env request w = (w', inr (Template "upload_image.html" []))
    /\ stores w' = stores w
    /\ history w' = history w
    /\ flashes w' = flashes w
    /\ log w' = log w ++ [(INFO, "Accessed the upload file page.")].
Proof.
  intros H. unfold_handlers. destruct (method request); try congruence.
  all: eexists; split; [reflexivity|]; repeat split.
Qed.

(** A POST without a [file] part writes nothing and logs the error.  With
    a session "No file part" is flashed and the client is redirected to
    the form.  Without one the [flash] raises inside the [try] block, the
    [except] clause logs that exception and its own [flash] raises again:
    two error records, nothing flashed, and the exception leaves the
    view. *)
Theorem missing_file_part_is_refused (env : Env) (request : Request) (w : World) :
  method request = POST ->
  multidict_get "force_failure" (form request) <> Some "true" ->
  multidict_get "file" (files request) = None ->
  stores (upload_file env request w).1 = stores w
  /\ history (upload_file env request w).1 = history w
  /\ (has_session env = true ->
      (upload_file env request w).2 = inr (Redirect (url request))
      /\ flashes (upload_file env request w).1 = flashes w ++ ["No file part"]
      /\ log (upload_file env request w).1
         = log w ++ [(INFO, "Accessed the upload file page.");
                     (INFO, "Received a POST request to upload a file.");
                     (ERROR, "Failed: No file part in the request.")])
  /\ (has_session env = false ->
      (upload_file env request w).2 = inl (RuntimeError session_unavailable)
      /\ flashes (upload_file env request w).1 = flashes w
      /\ log (upload_file env request w).1
         = log w ++ [(INFO, "Accessed the upload file page.");
                     (INFO, "Received a POST request to upload a file.");
                     (ERROR, "Failed: No file part in the request.");
                     (ERROR, "Failed: " +:+ session_unavailable)]).
Proof.
  intros Hpost Hforce Hfile. apply is_str_other in Hforce.
  unfold_handlers. rewrite Hpost, Hforce, Hfile. simpl.
  destruct (has_session env); simpl; rewrite <- !app_assoc;
    repeat split; intros; try discriminate; reflexivity.
Qed.

(** A POST whose [file] part has an empty name writes nothing and logs
    the error, whatever the content of the part.  With a session "No
    selected file" is flashed and the client is redirected to the form;
    without one both calls of [flash] raise, as for a missing part. *)
Theorem empty_filename_is_refused (env : Env) (request : Request) (w : World)
    (file : FileStorage) :
  method request = POST ->
  multidict_get "force_failure" (form request) <> Some "true" ->
  multidict_get "file" (files request) = Some file ->
  filename file = "" ->
  stores (upload_file env request w).1 = stores w
  /\ history (upload_file env request w).1 = history w
  /\ (has_session env = true ->
      (upload_file env request w).2 = inr (Redirect (url request))
      /\ flashes (upload_file env request w).1 = flashes w ++ ["No selected file"]
      /\ log (upload_file env request w).1
         = log w ++ [(INFO, "Accessed the upload file page.");
                     (INFO, "Received a POST request to upload a file.");
                     (ERROR, "Failed: No file selected for upload.")])
  /\ (has_session env = false ->
      (upload_file env request w).2 = inl (RuntimeError session_unavailable)
      /\ flashes (upload_file env request w).1 = flashes w
      /\ log (upload_file env request w).1
         = log w ++ [(INFO, "Accessed the upload file page.");
                     (INFO, "Received a POST request to upload a file.");
                     (ERROR, "Failed: No file selected for upload.");
                     (ERROR, "Failed: " +:+ session_unavailable)]).
Proof.
  intros Hpost Hforce Hfile Hname. apply is_str_other in Hforce.
  unfold_handlers. rewrite Hpost, Hforce, Hfile, Hname. simpl.
  destruct (has_session env); simpl; rewrite <- !app_assoc;
    repeat split; intros; try discriminate; reflexivity.
Qed.

(** With a session no exception leaves [upload_file], whatever the request
    and whatever the stores do.  The only exception that ever leaves it is
    the one [flash] raises when there is no session, and only in a POST. *)
Theorem upload_file_raises_only_without_session (env : Env) (request : Request)
    (w : World) :
  (has_session env = true ->
   exists response : Response, (upload_file env request w).2 = inr response)
  /\ (forall e : exn,
        (upload_file env request w).2 = inl e ->
        has_session env = false
        /\ e = RuntimeError session_unavailable
        /\ method request = POST).
Proof.
  unfold_handlers. simpl. upload_cases.
  all: split; [intros Hs; try discriminate Hs; eexists; reflexivity|].
  all: intros e He; try discriminate He.
  all: injection He as <-; repeat split.
Qed.

Lemma accepted_upload_run (env : Env) (request : Request) (w : World)
    (file : FileStorage) (folder : string) (n : Z) :
  accepted env request file folder n ->
  (upload_file env request w).2 = inr (answer_of env file)
  /\ uploads (upload_file env request w).1
     = <[Py.os_path_join folder
           (Werkzeug.secure_filename (nfkd env) (filename file))
         := stream file]> (uploads w)
  /\ documents (upload_file env request w).1
     = documents w ++ [document_of env file]
  /\ products (upload_file env request w).1
     = products w ++ [row_of env request n]
  /\ flashes (upload_file env request w).1 = flashes w
  /\ log (upload_file env request w).1
     = log w ++ [(INFO, "Accessed the upload file page.");
                 (INFO, "Received a POST request to upload a file.");
                 (INFO, "Success: File upload completed successfully.")].
Proof.
  intros H.
  destruct (accepted_steps _ _ _ _ _ H)
    as (Hsave & Hmongo & Hins & Hconn & (s & Hs & Hint) & Hexec & Hcommit).
  destruct H as ((Hpost & Hforce & Hfile & Hext) & Hfolder & _).
  apply is_str_other in Hforce.
  destruct (allowed_file_nonempty _ Hext) as [Hne Hemp].
  unfold answer_of, document_of, row_of. unfold_handlers.
  rewrite Hpost, Hforce, Hfile, Hne, Hemp, Hext, Hfolder, Hsave, Hmongo, Hins,
    Hconn, Hs, Hint, Hexec, Hcommit.
  destruct (is_str (ENV_MODE env) "backend"); simpl;
    rewrite <- !app_assoc; repeat split.
Qed.

(** An accepted upload writes the file under the sanitised name in the
    upload folder, replacing what was there; appends one document and one
    product row, whose name is the [product_name] field when there is one
    and whose review is the fixed text; flashes nothing; logs three
    records; and answers with the dict in backend mode and with the page
    otherwise. *)
Theorem accepted_upload_result (env : Env) (request : Request) (w : World)
    (file : FileStorage) (folder : string) (n : Z) :
  accepted env request file folder n ->
  (upload_file env request w).2 = inr (answer_of env file)
  /\ uploads (upload_file env request w).1
     = <[Py.os_path_join folder
           (Werkzeug.secure_filename (nfkd env) (filename file))
         := stream file]> (uploads w)
  /\ documents (upload_file env request w).1
     = documents w ++ [document_of env file]
  /\ products (upload_file env request w).1
     = products w ++ [row_of env request n]
  /\ flashes (upload_file env request w).1 = flashes w
  /\ log (upload_file env request w).1
     = log w ++ [(INFO, "Accessed the upload file page.");
                 (INFO, "Received a POST request to upload a file.");
                 (INFO, "Success: File upload completed successfully.")].
Proof. apply accepted_upload_run. Qed.

Ltac settle_records :=
  repeat match goal with
  | H : exists _, _ |- _ => destruct H
  | H : In _ [] |- _ => destruct H
  | H : In _ (_ :: _) |- _ => destruct H as [H | H]
  | H : _ = _ |- _ => discriminate H
  end.

(** A run answers with the dict or the page of a completed upload exactly
    when its three writes happened, and exactly then it logs the success
    record; such a run flashes nothing. *)
Theorem success_only_after_three_writes (env : Env) (request : Request)
    (w : World) :
  exists (new : list Effect) (records : list (Level * string)),
    history (upload_file env request w).1 = history w ++ new
    /\ log (upload_file env request w).1 = log w ++ records
    /\ (is_success (upload_file env request w).2 = true <->
        exists path content d row,
          new = [FileSaved path content; DocumentInserted d; ProductInserted row])
    /\ (is_success (upload_file env request w).2 = true <->
        In (INFO, "Success: File upload completed successfully.") records)
    /\ (is_success (upload_file env request w).2 = true ->
        flashes (upload_file env request w).1 = flashes w).
Proof.
  unfold_handlers. simpl. upload_cases.
  all: rewrite <- ?app_assoc; simpl.
  all: first
    [ eexists; eexists; split; [reflexivity|]; split; [reflexivity|]
    | exists []; eexists; split; [symmetry; apply app_nil_r|];
      split; [reflexivity|] ].
  all: repeat split; intros; settle_records;
    try reflexivity; try (simpl; tauto); try (repeat eexists; fail).
Qed.

Lemma failing_step_run (env : Env) (request : Request) (w : World)
    (file : FileStorage) (text : string) :
  passes_validation request file ->
  (disk_failure env = Some text ->
     ends_failed env request text w (upload_file env request w)
     /\ (UPLOAD_FOLDER env = None \/ save_written env = None ->
         history (upload_file env request w).1 = history w
         /\ stores (upload_file env request w).1 = stores w)
     /\ (forall (folder : string) (n : nat),
           UPLOAD_FOLDER env = Some folder -> save_written env = Some n ->
           history (upload_file env request w).1
           = history w
             ++ [FileSaved
                   (Py.os_path_join folder
                      (Werkzeug.secure_filename (nfkd env) (filename file)))
                   (Py.take n (stream file))]
           /\ stores (upload_file env request w).1
              = (<[Py.os_path_join folder
                     (Werkzeug.secure_filename (nfkd env) (filename file))
                   := Py.take n (stream file)]> (uploads w),
                 documents w, products w)))
  /\ (disk_failure env = None -> metadata_failure env = Some text ->
      exists folder path : string,
        UPLOAD_FOLDER env = Some folder
        /\ path = Py.os_path_join folder
                    (Werkzeug.secure_filename (nfkd env) (filename file))
        /\ ends_failed env request text w (upload_file env request w)
        /\ history (upload_file env request w).1
           = history w ++ [FileSaved path (stream file)]
        /\ stores (upload_file env request w).1
           = (<[path := stream file]> (uploads w), documents w, products w))
  /\ (disk_failure env = None -> metadata_failure env = None ->
      catalog_failure env request = Some text ->
      exists folder path : string,
        UPLOAD_FOLDER env = Some folder
        /\ path = Py.os_path_join folder
                    (Werkzeug.secure_filename (nfkd env) (filename file))
        /\ ends_failed env request text w (upload_file env request w)
        /\ history (upload_file env request w).1
           = history w ++ [FileSaved path (stream file);
                           DocumentInserted (document_of env file)]
        /\ stores (upload_file env request w).1
           = (<[path := stream file]> (uploads w),
              documents w ++ [document_of env file], products w)).
Proof.
  intros (Hpost & Hforce & Hfile & Hext).
  apply is_str_other in Hforce.
  destruct (allowed_file_nonempty _ Hext) as [Hne Hemp].
  unfold disk_failure, metadata_failure, catalog_failure, document_of, stores,
    ends_failed, failure_outcome.
  split; [|split].
  - intros Hd. destruct (UPLOAD_FOLDER env) as [folder|] eqn:Hfolder.
    + unfold_handlers.
      rewrite Hpost, Hforce, Hfile, Hne, Hemp, Hext, Hfolder, Hd. simpl.
      destruct (save_written env) as [n|] eqn:Hn;
        destruct (has_session env); simpl; rewrite <- ?app_assoc;
        repeat split; intros;
        repeat match goal with
        | H : _ \/ _ |- _ => destruct H
        | H : Some _ = Some _ |- _ => injection H as <-
        | H : _ = _ |- _ => discriminate H
        end; reflexivity.
    + injection Hd as <-. unfold_handlers.
      rewrite Hpost, Hforce, Hfile, Hne, Hemp, Hext, Hfolder. simpl.
      destruct (has_session env); simpl; repeat split; intros;
        try discriminate; reflexivity.
  - intros Hd Hm. destruct (UPLOAD_FOLDER env) as [folder|] eqn:Hfolder;
      [|discriminate].
    destruct (mongodb_error env) as [t|] eqn:Hmongo;
      [injection Hm as ->|];
      unfold_handlers;
      rewrite Hpost, Hforce, Hfile, Hne, Hemp, Hext, Hfolder, Hd, ?Hmongo, ?Hm;
      simpl; destruct (has_session env); simpl; rewrite <- ?app_assoc;
      exists folder; eexists; repeat split.
  - intros Hd Hm Hc. destruct (UPLOAD_FOLDER env) as [folder|] eqn:Hfolder;
      [|discriminate].
    destruct (mongodb_error env) eqn:Hmongo; [discriminate|].
    destruct (connect_error env) as [t|] eqn:Hconn.
    { injection Hc as ->. unfold_handlers.
      rewrite Hpost, Hforce, Hfile, Hne, Hemp, Hext, Hfolder, Hd, Hmongo, Hm,
        Hconn.
      simpl; destruct (has_session env); simpl; rewrite <- ?app_assoc;
        exists folder; eexists; repeat split. }
    destruct (multidict_get "initial_stock_count" (form request)) as [s|] eqn:Hs.
    2:{ injection Hc as <-. unfold_handlers.
        rewrite Hpost, Hforce, Hfile, Hne, Hemp, Hext, Hfolder, Hd, Hmongo, Hm,
          Hconn, Hs.
        simpl; destruct (has_session env); simpl; rewrite <- ?app_assoc;
          exists folder; eexists; repeat split. }
    destruct (Py.int (int_max_str_digits env) s) as [m|] eqn:Hint.
    2:{ injection Hc as <-. unfold_handlers.
        rewrite Hpost, Hforce, Hfile, Hne, Hemp, Hext, Hfolder, Hd, Hmongo, Hm,
          Hconn, Hs, Hint.
        simpl; destruct (has_session env); simpl; rewrite <- ?app_assoc;
          exists folder; eexists; repeat split. }
    destruct (execute_error env) as [t|] eqn:Hexec;
      [injection Hc as ->|];
      unfold_handlers;
      rewrite Hpost, Hforce, Hfile, Hne, Hemp, Hext, Hfolder, Hd, Hmongo, Hm,
        Hconn, Hs, Hint, ?Hexec, ?Hc;
      simpl; destruct (has_session env); simpl; rewrite <- ?app_assoc;
      exists folder; eexists; repeat split.
Qed.

(** For a validated request the first failing step decides what is left
    behind.  When the disk step fails before the destination is opened
    nothing is written; when the copy fails the destination holds what was
    copied; when the document store fails the file is there without a
    document; when the catalog step fails (the connection, the stock count,
    the statement or the commit) the file and the document are there
    without a product row.  Each time the run ends as a caught exception
    does: with a session the text of the exception is flashed and the
    client redirected, without one the exception of [flash] leaves the
    view. *)
Theorem writes_before_failure (env : Env) (request : Request) (w : World)
    (file : FileStorage) (text : string) :
  passes_validation request file ->
  (disk_failure env = Some text ->
     ends_failed env request text w (upload_file env request w)
     /\ (UPLOAD_FOLDER env = None \/ save_written env = None ->
         history (upload_file env request w).1 = history w
         /\ stores (upload_file env request w).1 = stores w)
     /\ (forall (folder : string) (n : nat),
           UPLOAD_FOLDER env = Some folder -> save_written env = Some n ->
           history (upload_file env request w).1
           = history w
             ++ [FileSaved
                   (Py.os_path_join folder
                      (Werkzeug.secure_filename (nfkd env) (filename file)))
                   (Py.take n (stream file))]
           /\ stores (upload_file env request w).1
              = (<[Py.os_path_join folder
                     (Werkzeug.secure_filename (nfkd env) (filename file))
                   := Py.take n (stream file)]> (uploads w),
                 documents w, products w)))
  /\ (disk_failure env = None -> metadata_failure env = Some text ->
      exists folder path : string,
        UPLOAD_FOLDER env = Some folder
        /\ path = Py.os_path_join folder
                    (Werkzeug.secure_filename (nfkd env) (filename file))
        /\ ends_failed env request text w (upload_file env request w)
        /\ history (upload_file env request w).1
           = history w ++ [FileSaved path (stream file)]
        /\ stores (upload_file env request w).1
           = (<[path := stream file]> (uploads w), documents w, products w))
  /\ (disk_failure env = None -> metadata_failure env = None ->
      catalog_failure env request = Some text ->
      exists folder path : string,
        UPLOAD_FOLDER env = Some folder
        /\ path = Py.os_path_join folder
                    (Werkzeug.secure_filename (nfkd env) (filename file))
        /\ ends_failed env request text w (upload_file env request w)
        /\ history (upload_file env request w).1
           = history w ++ [FileSaved path (stream file);
                           DocumentInserted (document_of env file)]
        /\ stores (upload_file env request w).1
           = (<[path := stream file]> (uploads w),
              documents w ++ [document_of env file], products w)).
Proof. apply failing_step_run. Qed.

(** Two accepted uploads whose names sanitise alike go to the same path:
    the second replaces the content of the first, no other file changes,
    and the document store and the catalog hold an entry for each of the
    two, under the same file name. *)
Theorem same_name_upload_overwrites (env1 env2 : Env) (request1 request2 : Request)
    (w : World) (file1 file2 : FileStorage) (folder : string) (n1 n2 : Z) :
  accepted env1 request1 file1 folder n1 ->
  accepted env2 request2 file2 folder n2 ->
  Werkzeug.secure_filename (nfkd env1) (filename file1)
  = Werkzeug.secure_filename (nfkd env2) (filename file2) ->
  let w1 := (upload_file env1 request1 w).1 in
  let w2 := (upload_file env2 request2 w1).1 in
  let path :=
    Py.os_path_join folder (Werkzeug.secure_filename (nfkd env1) (filename file1)) in
  uploads w1 !! path = Some (stream file1)
  /\ uploads w2 !! path = Some (stream file2)
  /\ (forall other : string, other <> path ->
        uploads w2 !! other = uploads w !! other)
  /\ documents w2 = documents w ++ [document_of env1 file1; document_of env2 file2]
  /\ file_path (document_of env1 file1) = file_path (document_of env2 file2)
  /\ products w2
     = products w ++ [row_of env1 request1 n1; row_of env2 request2 n2].
Proof.
  intros H1 H2 Hname w1 w2 path.
  destruct (accepted_upload_run env1 request1 w _ _ _ H1)
    as (_ & Hu1 & Hd1 & Hp1 & _).
  destruct (accepted_upload_run env2 request2 w1 _ _ _ H2)
    as (_ & Hu2 & Hd2 & Hp2 & _).
  fold w1 in Hu1, Hd1, Hp1. fold w2 in Hu2, Hd2, Hp2.
  rewrite <- Hname in Hu2. fold path in Hu1, Hu2.
  rewrite Hu2, Hd2, Hp2, Hu1, Hd1, Hp1, <- !app_assoc.
  repeat split.
  - apply lookup_insert_eq.
  - apply lookup_insert_eq.
  - intros other Hother. rewrite !lookup_insert_ne by congruence. reflexivity.
  - exact Hname.
Qed.

(** The handler reads three form fields only, and of each its first value:
    two requests that agree on the method, the URL, the files and on what
    [form.get] gives for [force_failure], [product_name] and
    [initial_stock_count] are handled alike. *)
Theorem upload_reads_three_fields (env : Env) (request1 request2 : Request)
    (w : World) :
  method request1 = method request2 ->
  url request1 = url request2 ->
  files request1 = files request2 ->
  multidict_get "force_failure" (form request1)
  = multidict_get "force_failure" (form request2) ->
  multidict_get "product_name" (form request1)
  = multidict_get "product_name" (form request2) ->
  multidict_get "initial_stock_count" (form request1)
  = multidict_get "initial_stock_count" (form request2) ->
  upload_file env request1 w = upload_file env request2 w.
Proof.
  intros Hm Hu Hf H1 H2 H3. unfold upload_file, upload_try.
  rewrite Hm, Hu, Hf, H1, H2, H3. reflexivity.
Qed.

(** ** The image list *)

Lemma show_uploaded_images_run (env : Env) (w : World) :
  mongodb_error env = None -> find_error env = None ->
  show_uploaded_images env w
  = (logged env INFO
       ("Fetched " +:+ decimal (length (documents w)) +:+ " images from MongoDB.")
       (logged env INFO "Accessed the images page." w),
     inr (if is_str (ENV_MODE env) "backend"
          then DumpsData (map (fun d => image_entry (file_path d)) (documents w))
          else Template "view_images.html"
                 [("navigation",
                   map (fun d => image_entry (file_path d)) (documents w))])).
Proof.
  intros Hm Hf. unfold_handlers. rewrite Hm, Hf. simpl.
  destruct (is_str (ENV_MODE env) "backend"); reflexivity.
Qed.

(** When the document store answers, [show_uploaded_images] lists one
    entry per document, in the order of the store, as JSON data in backend
    mode and as the [navigation] of the page otherwise; it logs the number
    of documents and leaves the stores and the flashed messages alone. *)
Theorem listing_has_one_entry_per_document (env : Env) (w : World) :
  mongodb_error env = None -> find_error env = None ->
  exists data : list dict,
    listing_of (show_uploaded_images env w).2 = Some data
    /\ length data = length (documents w)
    /\ (forall (i : nat) (d : Document),
          documents w !! i = Some d ->
          data !! i = Some [("image_url",
                             "/uploads/" +:+ Werkzeug.quote (file_path d))])
    /\ (ENV_MODE env = Some "backend" ->
        (show_uploaded_images env w).2 = inr (DumpsData data))
    /\ (ENV_MODE env <> Some "backend" ->
        (show_uploaded_images env w).2
        = inr (Template "view_images.html" [("navigation", data)]))
    /\ stores (show_uploaded_images env w).1 = stores w
    /\ flashes (show_uploaded_images env w).1 = flashes w
    /\ log (show_uploaded_images env w).1
       = log w ++ [(INFO, "Accessed the images page.");
                   (INFO, "Fetched " +:+ decimal (length (documents w))
                          +:+ " images from MongoDB.")].
Proof.
  intros Hm Hf. rewrite (show_uploaded_images_run env w Hm Hf).
  exists (map (fun d => image_entry (file_path d)) (documents w)).
  split; [destruct (is_str (ENV_MODE env) "backend"); reflexivity|].
  split; [apply length_map|].
  split.
  { intros i d Hi. rewrite list_lookup_fmap_Some. exists d. now split. }
  split; [intros ->; now rewrite is_str_same|].
  split; [intros Hmode; now rewrite (is_str_other _ _ Hmode)|].
  simpl. rewrite <- app_assoc. repeat split.
Qed.

(** [show_uploaded_images] has no handler of its own: when the connection
    to the document store or the query raises, the exception leaves the
    view, after one record was logged and with nothing else changed. *)
Theorem listing_errors_escape (env : Env) (w : World) (text : string) :
  mongodb_error env = Some text
  \/ (mongodb_error env = None /\ find_error env = Some text) ->
  (show_uploaded_images env w).2 = inl (DriverError text)
  /\ stores (show_uploaded_images env w).1 = stores w
  /\ flashes (show_uploaded_images env w).1 = flashes w
  /\ log (show_uploaded_images env w).1
     = log w ++ [(INFO, "Accessed the images page.")].
Proof.
  intros [Hm | [Hm Hf]]; unfold_handlers; rewrite Hm, ?Hf; simpl; repeat split.
Qed.

(** An accepted upload adds exactly one entry to the image list, at its
    end: the URL of the sanitised name. *)
Theorem upload_adds_one_listing_entry (env env' : Env) (request : Request)
    (w : World) (file : FileStorage) (folder : string) (n : Z) :
  accepted env request file folder n ->
  mongodb_error env' = None -> find_error env' = None ->
  exists data : list dict,
    listing_of (show_uploaded_images env' w).2 = Some data
    /\ listing_of (show_uploaded_images env' (upload_file env request w).1).2
       = Some (data ++ [[("image_url",
                          "/uploads/"
                          +:+ Werkzeug.secure_filename (nfkd env) (filename file))]]).
Proof.
  intros H Hm Hf.
  destruct (accepted_upload_run env request w _ _ _ H) as (_ & _ & Hd & _).
  rewrite !(show_uploaded_images_run env' _ Hm Hf), Hd, map_app.
  exists (map (fun d => image_entry (file_path d)) (documents w)).
  unfold image_entry, document_of. simpl. rewrite url_for_secure_filename.
  destruct (is_str (ENV_MODE env') "backend"); split; reflexivity.
Qed.

(** ** More on extensions and sanitised names *)

Lemma lower_char_idempotent (c : ascii) :
  Py.lower_char (Py.lower_char c) = Py.lower_char c.
Proof. destruct c as [[] [] [] [] [] [] [] []]; reflexivity. Qed.

Lemma lower_char_dot (c : ascii) :
  Ascii.eqb (Py.lower_char c) "." = Ascii.eqb c ".".
Proof. destruct c as [[] [] [] [] [] [] [] []]; reflexivity. Qed.

Lemma lower_idempotent (s : string) : Py.lower (Py.lower s) = Py.lower s.
Proof.
  induction s as [|c s IH]; simpl; [reflexivity|].
  now rewrite lower_char_idempotent, IH.
Qed.

Lemma contains_dot_lower (s : string) :
  Py.contains "." (Py.lower s) = Py.contains "." s.
Proof.
  induction s as [|c s IH]; simpl; [reflexivity|].
  now rewrite lower_char_dot, IH.
Qed.

Lemma allowed_file_split (stem ext : string) :
  Py.contains "." ext = false ->
  allowed_file (stem +:+ "." +:+ ext)
  = bool_decide (Py.lower ext ∈ ALLOWED_EXTENSIONS).
Proof.
  intros Hext. unfold allowed_file, Py.rsplit1.
  assert (E : Py.rsplit_last "." (stem +:+ "." +:+ ext) = Some (stem, ext))
    by (apply rsplit_last_Some; now split).
  rewrite E, contains_app. simpl. rewrite orb_true_r. reflexivity.
Qed.

(** [allowed_file] refuses a name without a dot and a name that ends with
    a dot; for the others only the text after the last dot counts, and its
    case does not: the stem may be anything, also empty or itself ending
    in an extension. *)
Theorem allowed_file_last_extension_only :
  (forall f : string, Py.contains "." f = false -> allowed_file f = false)
  /\ (forall stem : string, allowed_file (stem +:+ ".") = false)
  /\ (forall stem stem' ext : string,
        Py.contains "." ext = false ->
        allowed_file (stem +:+ "." +:+ ext)
        = allowed_file (stem' +:+ "." +:+ Py.lower ext)).
Proof.
  split; [|split].
  - intros f H. unfold allowed_file. now rewrite H.
  - intros stem.
    change (stem +:+ ".") with (stem +:+ "." +:+ "").
    now rewrite allowed_file_split.
  - intros stem stem' ext H.
    rewrite !allowed_file_split, ?lower_idempotent; [reflexivity | |exact H].
    now rewrite contains_dot_lower.
Qed.

Lemma lower_char_letter (c : ascii) :
  Py.is_ascii_lower (Py.lower_char c) = true -> is_letter c = true.
Proof. destruct c as [[] [] [] [] [] [] [] []]; vm_compute; congruence. Qed.

Lemma letter_facts (c : ascii) :
  is_letter c = true ->
  Py.is_ascii c = true /\ Ascii.eqb c "/" = false /\ Py.isspace c = false
  /\ Werkzeug.is_filename_char c = true /\ Py.contains c "._" = false.
Proof.
  destruct c as [[] [] [] [] [] [] [] []]; vm_compute; intros H;
    try discriminate H; repeat split.
Qed.

Lemma all_chars_impl (p q : ascii -> bool) (s : string) :
  (forall c, p c = true -> q c = true) ->
  all_chars p s = true -> all_chars q s = true.
Proof.
  intros Hpq. induction s as [|c s IH]; simpl; [reflexivity|].
  intros H. apply andb_prop in H as [Hc H]. now rewrite (Hpq c Hc), (IH H).
Qed.

Lemma letters_of_lower (s : string) :
  all_chars Py.is_ascii_lower (Py.lower s) = true ->
  all_chars is_letter s = true.
Proof.
  induction s as [|c s IH]; simpl; [reflexivity|].
  intros H. apply andb_prop in H as [Hc H].
  now rewrite (lower_char_letter c Hc), (IH H).
Qed.

Lemma allowed_extension_letters (ext : string) :
  Py.lower ext ∈ ALLOWED_EXTENSIONS ->
  ext <> "" /\ all_chars is_letter ext = true.
Proof.
  intros H. apply allowed_extension in H. split.
  - intros ->. simpl in H. intuition discriminate.
  - apply letters_of_lower. simpl in H.
    destruct H as [<- | [<- | [<- | [<- | [<- | [<- | []]]]]]]; reflexivity.
Qed.

Lemma append_empty_r (s : string) : s +:+ "" = s.
Proof. induction s as [|c s IH]; simpl; [reflexivity|]. now rewrite IH. Qed.

Lemma append_not_empty (a w : string) : w <> "" -> a +:+ w <> "".
Proof. destruct a; simpl; [auto | discriminate]. Qed.

Lemma filter_chars_append (p : ascii -> bool) (a w : string) :
  all_chars p w = true ->
  Py.filter_chars p (a +:+ w) = Py.filter_chars p a +:+ w.
Proof.
  intros Hw. induction a as [|c a IH]; simpl.
  - induction w as [|c w IH]; simpl; [reflexivity|].
    simpl in Hw. apply andb_prop in Hw as [Hc Hw]. now rewrite Hc, (IH Hw).
  - rewrite IH. now destruct (p c).
Qed.

Lemma map_chars_append (f : ascii -> ascii) (a w : string) :
  all_chars (fun c => Ascii.eqb (f c) c) w = true ->
  Py.map_chars f (a +:+ w) = Py.map_chars f a +:+ w.
Proof.
  intros Hw. induction a as [|c a IH]; simpl; [|now rewrite IH].
  induction w as [|c w IH]; simpl; [reflexivity|].
  simpl in Hw. apply andb_prop in Hw as [Hc Hw].
  apply Ascii.eqb_eq in Hc. now rewrite Hc, (IH Hw).
Qed.

Lemma split_from_word (word w : string) :
  all_chars (fun c => negb (Py.isspace c)) w = true ->
  Py.split_from word w
  = if Py.is_empty (word +:+ w) then [] else [word +:+ w].
Proof.
  revert word. induction w as [|c w IH]; intros word; simpl.
  - now rewrite append_empty_r.
  - intros H. apply andb_prop in H as [Hc H]. apply negb_true_iff in Hc.
    rewrite Hc, (IH _ H), append_assoc. reflexivity.
Qed.

Lemma join_split_suffix (a word w : string) :
  w <> "" -> all_chars (fun c => negb (Py.isspace c)) w = true ->
  exists kept : string,
    Py.join "_" (Py.split_from word (a +:+ w)) = kept +:+ w.
Proof.
  intros Hne Hw. revert word. induction a as [|c a IH]; intros word.
  - simpl. rewrite (split_from_word _ _ Hw).
    destruct (word +:+ w) eqn:E; [now apply append_not_empty in E|].
    exists word. rewrite E. reflexivity.
  - simpl. destruct (Py.isspace c).
    + destruct (Py.is_empty word) eqn:Eword; [apply IH|].
      destruct (IH "") as (kept & Hkept).
      destruct (Py.split_from "" (a +:+ w)) as [|y l] eqn:El.
      * simpl in Hkept. symmetry in Hkept. now apply append_not_empty in Hkept.
      * exists (word +:+ "_" +:+ kept).
        unfold Py.join in *. change (String.concat "_" (word :: y :: l))
          with (word +:+ "_" +:+ String.concat "_" (y :: l)).
        now rewrite Hkept, !append_assoc.
    + apply IH.
Qed.

Lemma lstrip_suffix (drop : ascii -> bool) (q w : string) :
  w <> "" -> all_chars (fun c => negb (drop c)) w = true ->
  exists kept : string, Py.lstrip drop (q +:+ w) = kept +:+ w.
Proof.
  intros Hne Hw. induction q as [|x q IH]; simpl.
  - exists "". destruct w as [|c w]; [congruence|]. simpl in *.
    apply andb_prop in Hw as [Hc _]. apply negb_true_iff in Hc. now rewrite Hc.
  - destruct (drop x); [exact IH|]. now exists (String x q).
Qed.

Lemma rstrip_word (drop : ascii -> bool) (w : string) :
  all_chars (fun c => negb (drop c)) w = true -> Py.rstrip drop w = w.
Proof.
  induction w as [|c w IH]; simpl; [reflexivity|].
  intros H. apply andb_prop in H as [Hc H]. apply negb_true_iff in Hc.
  rewrite (IH H), Hc. now destruct w.
Qed.

Lemma rstrip_suffix (drop : ascii -> bool) (q w : string) :
  w <> "" -> all_chars (fun c => negb (drop c)) w = true ->
  Py.rstrip drop (q +:+ w) = q +:+ w.
Proof.
  intros Hne Hw. induction q as [|x q IH]; simpl; [now apply rstrip_word|].
  rewrite IH. destruct (q +:+ w) eqn:E; [now apply append_not_empty in E|].
  reflexivity.
Qed.

Lemma allowed_file_parts (f : string) :
  allowed_file f = true ->
  exists stem ext : string,
    f = stem +:+ "." +:+ ext /\ Py.contains "." ext = false
    /\ Py.lower ext ∈ ALLOWED_EXTENSIONS.
Proof.
  unfold allowed_file, Py.rsplit1. intros H.
  apply andb_prop in H as [_ H].
  destruct (Py.rsplit_last "." f) as [[stem ext]|] eqn:E; simpl in H;
    [|discriminate].
  apply rsplit_last_Some in E as [-> Hext].
  exists stem, ext. repeat split; [exact Hext|].
  now apply bool_decide_eq_true in H.
Qed.

(** The sanitised name of an accepted file keeps the extension: for a
    name that normalisation leaves alone (any ASCII name), the sanitised
    name ends with the letters after the last dot, so it is not empty and
    the file is not written onto the upload folder itself. *)
Theorem accepted_name_keeps_extension (normalize : string -> string)
    (f : string) :
  allowed_file f = true -> normalize f = f ->
  exists stem ext kept : string,
    f = stem +:+ "." +:+ ext
    /\ Py.contains "." ext = false
    /\ ext <> ""
    /\ Werkzeug.secure_filename normalize f = kept +:+ ext
    /\ Werkzeug.secure_filename normalize f <> "".
Proof.
  intros Hallowed Hnorm.
  apply allowed_file_parts in Hallowed as (stem & ext & Hf & Hdot & Hin).
  apply allowed_extension_letters in Hin as [Hne Hletters].
  exists stem, ext.
  assert (Hascii : all_chars Py.is_ascii ext = true)
    by (apply (all_chars_impl _ _ _ (fun c H => proj1 (letter_facts c H)) Hletters)).
  assert (Hslash : all_chars
            (fun c => Ascii.eqb (if Ascii.eqb c "/" then " "%char else c) c) ext
            = true).
  { apply (all_chars_impl is_letter); [|exact Hletters].
    intros c H. destruct (letter_facts c H) as (_ & -> & _).
    apply Ascii.eqb_refl. }
  assert (Hspace : all_chars (fun c => negb (Py.isspace c)) ext = true).
  { apply (all_chars_impl is_letter); [|exact Hletters].
    intros c H. destruct (letter_facts c H) as (_ & _ & -> & _). reflexivity. }
  assert (Hchar : all_chars Werkzeug.is_filename_char ext = true).
  { apply (all_chars_impl is_letter); [|exact Hletters].
    intros c H. now destruct (letter_facts c H) as (_ & _ & _ & -> & _). }
  assert (Hstrip : all_chars (fun c => negb (Py.contains c "._")) ext = true).
  { apply (all_chars_impl is_letter); [|exact Hletters].
    intros c H. destruct (letter_facts c H) as (_ & _ & _ & _ & ->). reflexivity. }
  unfold Werkzeug.secure_filename, Py.strip, Py.replace_char, Py.split.
  rewrite Hnorm, Hf.
  change (stem +:+ "." +:+ ext) with (stem +:+ String "." ext).
  replace (stem +:+ String "." ext) with ((stem +:+ ".") +:+ ext)
    by (now rewrite append_assoc).
  rewrite (filter_chars_append _ _ _ Hascii), (map_chars_append _ _ _ Hslash).
  destruct (join_split_suffix
              (Py.map_chars (fun c => if Ascii.eqb c "/" then " "%char else c)
                 (Py.filter_chars Py.is_ascii (stem +:+ ".")))
              "" ext Hne Hspace) as (k1 & ->).
  rewrite (filter_chars_append _ _ _ Hchar).
  destruct (lstrip_suffix (fun c => Py.contains c "._")
              (Py.filter_chars Werkzeug.is_filename_char k1) ext Hne Hstrip)
    as (k2 & ->).
  rewrite (rstrip_suffix _ _ _ Hne Hstrip).
  exists k2. rewrite append_assoc.
  repeat split; [exact Hdot | exact Hne | now apply append_not_empty].
Qed.

(** ** More on the log stream *)

Lemma count_LF_append (a b : string) :
  count_LF (a +:+ b) = count_LF a + count_LF b.
Proof. induction a as [|c a IH]; simpl; [reflexivity|]. rewrite IH. lia. Qed.

Lemma count_LF_none (s : string) :
  all_chars (fun c => negb (is_LF c)) s = true -> count_LF s = 0.
Proof.
  induction s as [|c s IH]; simpl; [reflexivity|].
  intros H. apply andb_prop in H as [Hc H]. apply negb_true_iff in Hc.
  now rewrite Hc, (IH H).
Qed.

Lemma at_line_start_after_line (body rest : string) :
  at_line_start ((body +:+ LF) +:+ rest) = at_line_start rest.
Proof.
  unfold at_line_start, LF. rewrite append_assoc.
  simpl (String _ EmptyString +:+ rest). rewrite ends_with_append.
  destruct body, rest; reflexivity.
Qed.

Lemma open_line_not_at_line_start (chunk : string) :
  open_line chunk -> at_line_start chunk = false.
Proof.
  intros [Hne Hno]. unfold at_line_start.
  destruct chunk as [|c chunk]; [congruence|]. simpl Py.is_empty.
  destruct (Py.ends_with (ascii_of_N 10) (String c chunk)) eqn:E; [|reflexivity].
  apply ends_with_LF_has_LF in E. congruence.
Qed.

(** The stream is empty exactly for an empty log; no chunk is empty; and
    the number of chunks is the number of newlines of the text, plus one
    when the text does not end with a newline. *)
Theorem log_stream_chunk_count (f : string) :
  (generate f = [] <-> f = "")
  /\ Forall (fun chunk => chunk <> "") (generate f)
  /\ length (generate f)
     = count_LF f + (if at_line_start f then 0 else 1).
Proof.
  apply (generate_elim (fun f chunks =>
    (chunks = [] <-> f = "")
    /\ Forall (fun chunk => chunk <> "") chunks
    /\ length chunks = count_LF f + (if at_line_start f then 0 else 1))).
  - intros g rest e _. apply readline_empty in e as ->.
    repeat split; auto.
  - intros g c line rest e (_ & IHall & IHlen) _.
    pose proof (readline_app _ _ _ e) as Hg.
    split; [|split].
    + split; [discriminate|]. rewrite Hg. discriminate.
    + constructor; [discriminate | exact IHall].
    + simpl length. rewrite IHlen, Hg, count_LF_append.
      destruct (readline_shape _ _ _ e) as [H | [(body & Hb & Hno) | [H ->]]].
      * discriminate.
      * rewrite Hb, at_line_start_after_line, count_LF_append,
          (count_LF_none _ Hno).
        unfold LF. simpl. lia.
      * rewrite append_empty_r, (open_line_not_at_line_start _ H),
          (count_LF_none _ (proj2 H)).
        simpl. lia.
Qed.

Lemma universal_newlines_no_CR (st : bool) (s : string) :
  Py.contains (ascii_of_N 13) (universal_newlines st s) = false.
Proof.
  revert st. induction s as [|c s IH]; intros st; simpl; [reflexivity|].
  destruct (is_CR c) eqn:Ec.
  - simpl. apply IH.
  - destruct (is_LF c && st); [apply IH|].
    simpl. now rewrite is_CR_eqb, Ec, IH.
Qed.

Lemma contains_chunk (c : ascii) (chunks : list string) (chunk : string) :
  Py.contains c (body_of chunks) = false -> In chunk chunks ->
  Py.contains c chunk = false.
Proof.
  induction chunks as [|x chunks IH]; simpl; [tauto|].
  rewrite contains_app. intros H. apply orb_false_elim in H as [Hx H].
  intros [<- | Hin]; [exact Hx | now apply IH].
Qed.

(** The log is read in text mode, so no chunk of the stream holds a
    carriage return, whatever the file holds: a line the file ends with
    CR LF or with CR alone arrives ended by LF. *)
Theorem log_stream_has_no_carriage_return (w : World) (chunks : list string)
    (mimetype chunk : string) :
  (watch_logs w).2 = inr (Stream chunks mimetype) ->
  In chunk chunks ->
  Py.contains (ascii_of_N 13) chunk = false.
Proof.
  intros [= <- _] Hin.
  apply (contains_chunk _ _ _ ltac:(rewrite generate_body;
                                     apply universal_newlines_no_CR) Hin).
Qed.

(** ** Uploads one after the other *)

(** Nothing is undone when the catalog step fails, so sending the same
    request again, once the catalog works, leaves two documents for the
    one file and one product row; the image list then shows the file
    twice. *)
Theorem retry_after_catalog_failure_duplicates_document (env1 env2 env' : Env)
    (request : Request) (w : World) (file : FileStorage) (folder : string)
    (n : Z) (text : string) :
  passes_validation request file ->
  disk_failure env1 = None -> metadata_failure env1 = None ->
  catalog_failure env1 request = Some text ->
  accepted env2 request file folder n ->
  nfkd env1 = nfkd env2 ->
  mongodb_error env' = None -> find_error env' = None ->
  let w1 := (upload_file env1 request w).1 in
  let w2 := (upload_file env2 request w1).1 in
  documents w2 = documents w ++ [document_of env1 file; document_of env2 file]
  /\ file_path (document_of env1 file) = file_path (document_of env2 file)
  /\ products w2 = products w ++ [row_of env2 request n]
  /\ exists data : list dict,
       listing_of (show_uploaded_images env' w).2 = Some data
       /\ listing_of (show_uploaded_images env' w2).2
          = Some (data ++ [image_entry (file_path (document_of env2 file));
                           image_entry (file_path (document_of env2 file))]).
Proof.
  intros Hval Hd Hm Hc Hacc Hnfkd Hmongo Hfind w1 w2.
  destruct (failing_step_run env1 request w file text Hval)
    as (_ & _ & H3).
  destruct (H3 Hd Hm Hc) as (folder1 & path & _ & _ & _ & _ & Hstores).
  fold w1 in Hstores. unfold stores in Hstores.
  injection Hstores as _ Hdocs Hprods.
  destruct (accepted_upload_run env2 request w1 _ _ _ Hacc)
    as (_ & _ & Hdocs2 & Hprods2 & _).
  fold w2 in Hdocs2, Hprods2.
  assert (Hsame : file_path (document_of env1 file)
                  = file_path (document_of env2 file))
    by (unfold document_of; simpl; now rewrite Hnfkd).
  rewrite Hdocs2, Hprods2, Hdocs, Hprods, <- app_assoc.
  repeat split; [exact Hsame|].
  exists (map (fun d => image_entry (file_path d)) (documents w)).
  rewrite !(show_uploaded_images_run env' _ Hmongo Hfind), Hdocs2, Hdocs,
    <- app_assoc, map_app.
  unfold document_of. simpl. rewrite Hnfkd.
  destruct (is_str (ENV_MODE env') "backend"); split; reflexivity.
Qed.

(** ** What every run keeps *)

(** [upload_file] only adds to the stores: the documents and the product
    rows of before are still there, in place, every file of before still
    exists, at most one document and one row are added, and a row is
    added only together with a document. *)
Theorem stores_only_grow (env : Env) (request : Request) (w : World) :
  exists (ds : list Document) (ps : list Product),
    documents (upload_file env request w).1 = documents w ++ ds
    /\ products (upload_file env request w).1 = products w ++ ps
    /\ length ps <= length ds <= 1
    /\ forall path : string,
         is_Some (uploads w !! path) ->
         is_Some (uploads (upload_file env request w).1 !! path).
Proof.
  unfold_handlers. simpl. upload_cases.
  all: first
    [ exists [], []; split; [symmetry; apply app_nil_r|];
      split; [symmetry; apply app_nil_r|]
    | eexists; exists []; split; [reflexivity|];
      split; [symmetry; apply app_nil_r|]
    | eexists; eexists; split; [reflexivity|]; split; [reflexivity|] ].
  all: split; [simpl; lia|]; intros path Hpath; try exact Hpath.
  all: match goal with
       | |- is_Some (<[?p := _]> _ !! ?q) =>
           destruct (decide (p = q)) as [<- |];
           [rewrite lookup_insert_eq; eauto
           |rewrite lookup_insert_ne by assumption; exact Hpath]
       end.
Qed.

(** When every product row names a document of the document store, this
    is still so after any run of [upload_file]: the row an upload adds
    names the document the same upload added. *)
Theorem upload_keeps_references (env : Env) (request : Request) (w : World) :
  references_hold w -> references_hold (upload_file env request w).1.
Proof.
  unfold references_hold. intros Hw.
  unfold_handlers. simpl. upload_cases.
  all: intros row Hrow.
  all: try (destruct (Hw row Hrow) as (d & Hd & Hid); exists d;
            split; [try exact Hd; apply in_or_app; now left | exact Hid]).
  all: apply in_app_or in Hrow as [Hrow | [<- | []]].
  all: try (destruct (Hw row Hrow) as (d & Hd & Hid); exists d;
            split; [apply in_or_app; now left | exact Hid]).
  all: eexists; split; [apply in_or_app; right; now left | reflexivity].
Qed.

(** A run flashes at most one message.  With a session it flashes one
    exactly when it logs an error record; without a session it never
    flashes, and it logs an error record exactly when it ends with the
    exception of [flash]. *)
Theorem flash_goes_with_error_record (env : Env) (request : Request) (w : World) :
  exists (records : list (Level * string)) (messages : list string),
    log (upload_file env request w).1 = log w ++ records
    /\ flashes (upload_file env request w).1 = flashes w ++ messages
    /\ length messages <= 1
    /\ (has_session env = true ->
        length messages = length (List.filter is_error records))
    /\ (has_session env = false ->
        messages = []
        /\ (List.filter is_error records <> [] <->
            (upload_file env request w).2 = inl (RuntimeError session_unavailable))).
Proof.
  unfold_handlers. simpl. upload_cases.
  all: rewrite <- ?app_assoc; simpl.
  all: first
    [ eexists; eexists; split; [reflexivity|]; split; [reflexivity|]
    | eexists; exists []; split; [reflexivity|];
      split; [symmetry; apply app_nil_r|] ].
  all: simpl; split; [lia|].
  all: split.
  all: try (intros Hs; try discriminate Hs; reflexivity).
  all: intros _; split; [reflexivity|].
  all: split; intros H;
    first [reflexivity | discriminate H | discriminate
          | exfalso; apply H; reflexivity].
Qed.

(** ** The further properties on the sample inputs *)

Lemma photo_accepted : accepted sample_env photo_request photo_file "uploads" 5.
Proof. repeat split; try reflexivity; discriminate. Defined.

Lemma retouched_accepted :
  accepted frontend_env retouched_request retouched_file "uploads" 7.
Proof. repeat split; try reflexivity; discriminate. Defined.

Lemma photo_validated : passes_validation photo_request photo_file.
Proof. repeat split; try reflexivity; discriminate. Defined.

Lemma get_request_witness :
  exists w' : World,
    upload_file sample_env get_request empty_world
    = (w', inr (Template "upload_image.html" []))
    /\ history w' = [] /\ flashes w' = [].
Proof.
  destruct (other_methods_render_form sample_env get_request empty_world
              ltac:(discriminate)) as (w' & Hrun & _ & Hh & Hf & _).
  exists w'. auto.
Defined.

Lemma no_file_part_witness :
  (upload_file keyed_env no_file_request empty_world).2
  = inr (Redirect "http://localhost/upload-file")
  /\ flashes (upload_file keyed_env no_file_request empty_world).1
     = ["No file part"]
  /\ history (upload_file keyed_env no_file_request empty_world).1 = [].
Proof.
  destruct (missing_file_part_is_refused keyed_env no_file_request empty_world
              eq_refl ltac:(discriminate) eq_refl) as (_ & Hh & Hyes & _).
  destruct (Hyes eq_refl) as (Hr & Hf & _).
  split; [exact Hr|]. split; [exact Hf | exact Hh].
Defined.

Lemma empty_filename_witness :
  (upload_file sample_env empty_name_request empty_world).2
  = inl (RuntimeError session_unavailable)
  /\ flashes (upload_file sample_env empty_name_request empty_world).1 = []
  /\ history (upload_file sample_env empty_name_request empty_world).1 = [].
Proof.
  destruct (empty_filename_is_refused sample_env empty_name_request empty_world
              {| filename := ""; stream := "bytes" |}
              eq_refl ltac:(discriminate) eq_refl eq_refl)
    as (_ & Hh & _ & Hno).
  destruct (Hno eq_refl) as (Hr & Hf & _).
  split; [exact Hr|]. split; [exact Hf | exact Hh].
Defined.

Lemma frontend_upload_witness :
  (upload_file frontend_env retouched_request empty_world).2
  = inr (Html (uploaded_page "photo.png" "/uploads/photo.png"))
  /\ products (upload_file frontend_env retouched_request empty_world).1
     = [{| name := None; image_mongodb_id := "65f1c0ffee0123456789abce";
           stock_count := 7; review := "Sample Review" |}].
Proof.
  destruct (accepted_upload_result frontend_env retouched_request empty_world
              retouched_file "uploads" 7 retouched_accepted)
    as (Hr & _ & _ & Hp & _).
  split; [exact Hr | exact Hp].
Defined.

Lemma full_disk_witness :
  (upload_file full_disk_env photo_request empty_world).2
  = inl (RuntimeError session_unavailable)
  /\ history (upload_file full_disk_env photo_request empty_world).1
     = [FileSaved "uploads/photo.png" "by"]
  /\ flashes (upload_file full_disk_env photo_request empty_world).1 = [].
Proof.
  destruct (writes_before_failure full_disk_env photo_request empty_world
              photo_file "[Errno 28] No space left on device" photo_validated)
    as (H & _ & _).
  destruct (H eq_refl) as ((Hr & Hf) & _ & Hcopy).
  destruct (Hcopy "uploads" 2 eq_refl eq_refl) as (Hh & _).
  split; [exact Hr|]. split; [exact Hh | exact Hf].
Defined.

Lemma overwrite_witness :
  uploads (upload_file frontend_env retouched_request
             (upload_file sample_env photo_request empty_world).1).1
  !! "uploads/photo.png" = Some "other bytes"
  /\ length (documents (upload_file frontend_env retouched_request
                          (upload_file sample_env photo_request empty_world).1).1)
     = 2.
Proof.
  destruct (same_name_upload_overwrites sample_env frontend_env photo_request
              retouched_request empty_world photo_file retouched_file "uploads"
              5 7 photo_accepted retouched_accepted eq_refl)
    as (_ & Hu & _ & Hd & _).
  split; [exact Hu|]. rewrite Hd. reflexivity.
Defined.

Lemma noisy_request_witness :
  upload_file sample_env noisy_request empty_world
  = upload_file sample_env photo_request empty_world.
Proof.
  apply (upload_reads_three_fields sample_env noisy_request photo_request
           empty_world); reflexivity.
Defined.

Lemma hidden_name_witness :
  exists stem ext kept : string,
    ".png" = stem +:+ "." +:+ ext
    /\ Werkzeug.secure_filename (fun s => s) ".png" = kept +:+ ext
    /\ Werkzeug.secure_filename (fun s => s) ".png" <> "".
Proof.
  destruct (accepted_name_keeps_extension (fun s => s) ".png" eq_refl eq_refl)
    as (stem & ext & kept & Hf & _ & _ & Hk & Hne).
  exists stem, ext, kept. auto.
Defined.

Lemma listing_witness :
  (show_uploaded_images sample_env
     (upload_file sample_env photo_request empty_world).1).2
  = inr (DumpsData [[("image_url", "/uploads/photo.png")]]).
Proof.
  destruct (listing_has_one_entry_per_document sample_env
              (upload_file sample_env photo_request empty_world).1
              eq_refl eq_refl)
    as (data & _ & Hlen & Hentry & Hmode & _).
  rewrite (Hmode eq_refl). f_equal. f_equal.
  destruct data as [|entry [|? ?]]; try discriminate Hlen.
  specialize (Hentry 0 photo_document eq_refl).
  injection Hentry as ->. reflexivity.
Defined.

Lemma listing_error_witness :
  (show_uploaded_images mongo_down_env empty_world).2
  = inl (DriverError "connection refused").
Proof.
  apply (listing_errors_escape mongo_down_env empty_world "connection refused").
  left. reflexivity.
Defined.

Lemma listing_grows_witness :
  listing_of (show_uploaded_images sample_env
                (upload_file sample_env photo_request empty_world).1).2
  = Some [[("image_url", "/uploads/photo.png")]].
Proof.
  destruct (upload_adds_one_listing_entry sample_env sample_env photo_request
              empty_world photo_file "uploads" 5 photo_accepted eq_refl eq_refl)
    as (data & Hbefore & Hafter).
  injection Hbefore as <-. exact Hafter.
Defined.

Lemma crlf_stream_witness :
  In ("a" +:+ LF) (generate (open_text (app_log crlf_world)))
  /\ Py.contains (ascii_of_N 13) ("a" +:+ LF) = false.
Proof.
  assert (Hin : In ("a" +:+ LF) (generate (open_text (app_log crlf_world))))
    by (left; reflexivity).
  split; [exact Hin|].
  exact (log_stream_has_no_carriage_return crlf_world _ "text/plain" _
           eq_refl Hin).
Defined.

Lemma retry_witness :
  length (documents (upload_file sample_env photo_request
                       (upload_file catalog_down_env photo_request
                          empty_world).1).1) = 2
  /\ length (products (upload_file sample_env photo_request
                         (upload_file catalog_down_env photo_request
                            empty_world).1).1) = 1.
Proof.
  destruct (retry_after_catalog_failure_duplicates_document catalog_down_env
              sample_env sample_env photo_request empty_world photo_file
              "uploads" 5 "connection to server failed" photo_validated
              eq_refl eq_refl eq_refl photo_accepted eq_refl eq_refl eq_refl)
    as (Hd & _ & Hp & _).
  split; [rewrite Hd | rewrite Hp]; reflexivity.
Defined.

Lemma references_witness :
  references_hold
    (upload_file frontend_env retouched_request
       (upload_file sample_env photo_request empty_world).1).1.
Proof.
  apply (upload_keeps_references frontend_env retouched_request
           (upload_file sample_env photo_request empty_world).1).
  intros row [<- | []]. exists photo_document. split; [now left | reflexivity].
Defined.
